(** * create.py: the staged pipeline controller of the orchestrator

    A shallow embedding of [src/create.py]: the function [_main] and the
    script body under [if __name__ == '__main__'], together with the
    properties of the pipeline that the specification states.

    The script talks to the outside world through a handful of calls
    ([io.run], [input], [os.path.exists], ...).  These are collected in the
    class [Externals]; the script itself is written in a small monad that
    threads the world, records every [io.run] invocation and every line of
    output, and has Python's two ways of leaving a function early:
    [return] and an uncaught exception. *)

From stdpp Require Import base option strings list gmap.

Set Default Proof Using "Type".
#[local] Set Warnings "-register-all".

(** ** Values of a loaded YAML document *)

(** What [yaml.load] hands back, as far as the script looks at it: scalars,
    sequences and mappings with string keys. A text is held as its UTF-8
    bytes. A mapping is held as Python's [dict] keeps it: its items in the
    order of the document, each key once. *)
Inductive yaml : Type :=
  | YNull
  | YBool (b : bool)
  | YInt (z : Z)
  | YStr (s : string)
  | YList (l : list yaml)
  | YMap (m : list (string * yaml)).

(** Exceptions the script can raise. [KeyError] carries the key, as
    Python's does. [LoadError] stands for [open] or [yaml.load] failing. *)
Inductive exn : Type :=
  | KeyError (k : string)
  | TypeError
  | IndexError
  | LoadError.

#[global] Instance exn_eq_dec : EqDecision exn.
Proof. solve_decision. Defined.

(** Python truthiness, as used by [if v:]. *)
Definition truthy (v : yaml) : bool :=
  match v with
  | YNull => false
  | YBool b => b
  | YInt z => negb (z =? 0)%Z
  | YStr s => negb (String.eqb s "")
  | YList l => match l with [] => false | _ => true end
  | YMap m => match m with [] => false | _ => true end
  end.

(** ** The outside world *)

(** One call of [io.run(cmd, cwd, quiet)]. *)
Record Invocation : Type := Inv {
  inv_cmd : string;
  inv_cwd : string;
  inv_quiet : bool;
}.

#[global] Instance Invocation_eq_dec : EqDecision Invocation.
Proof. solve_decision. Defined.

(** A look at the file system and what it found. *)
Inductive Probe : Type :=
  | PExists (path : string) (found : bool)
  | PIsDir (path : string) (found : bool).

#[global] Instance Probe_eq_dec : EqDecision Probe.
Proof. solve_decision. Defined.

(** What the script writes for the operator. *)
Inductive Output : Type :=
  | OutPrint (msg : string)
  | OutError (msg : string)
  | OutBanner (title : yaml)
  | OutPrompt (msg : string).

(** The collaborators of the script. [io_run], [io_get_confirmation_word]
    (and [io.error], [io.banner], which only write) live in [utils/io.py];
    the rest are Python's own. [py_repr] is [str()] of a value that is not
    a string. *)
Class Externals : Type := {
  World : Type;
  os_path_exists : string → World → bool;
  os_path_isdir : string → World → bool;
  os_environ : gmap string string;
  glob_glob : string → World → list string;
  yaml_load : string → World → option yaml;
  io_run : string → string → bool → World → (bool * string) * World;
  input : string → World → string * World;
  io_get_confirmation_word : World → string * World;
  py_repr : yaml → string;
}.

(** ** The script monad *)

Section Script.
Context `{Ext : Externals}.

(** The world, and three logs kept for the proofs: the [io.run] calls with
    their results, the file-system probes with theirs, the output. *)
Record State : Type := mkState {
  st_world : World;
  st_trace : list (Invocation * bool);
  st_probes : list Probe;
  st_out : list Output;
}.

Definition initial (w : World) : State :=
  {| st_world := w; st_trace := []; st_probes := []; st_out := [] |}.

(** How a block of statements ends: it falls through with a value, the
    enclosing function returns, or an exception is on its way up. *)
Inductive Res (R A : Type) : Type :=
  | Val (a : A)
  | Ret (r : R)
  | Exn (e : exn).
#[global] Arguments Val {R A} a.
#[global] Arguments Ret {R A} r.
#[global] Arguments Exn {R A} e.

Definition Py (R A : Type) : Type := State → Res R A * State.

#[global] Instance Py_ret {R} : MRet (Py R) := λ A a s, (Val a, s).
#[global] Instance Py_bind {R} : MBind (Py R) := λ A B f m s,
  match m s with
  | (Val a, s') => f a s'
  | (Ret r, s') => (Ret r, s')
  | (Exn e, s') => (Exn e, s')
  end.

Definition return_ {R A} (r : R) : Py R A := λ s, (Ret r, s).
Definition raise {R A} (e : exn) : Py R A := λ s, (Exn e, s).

(** [if c: body] *)
Definition when_ {R} (c : bool) (body : Py R ()) : Py R () :=
  if c then body else mret ().

(** [for x in xs: body] *)
Fixpoint for_each {R A} (xs : list A) (body : A → Py R ()) : Py R () :=
  match xs with
  | [] => mret ()
  | x :: xs' => body x;; for_each xs' body
  end.

(** Calling a function from a block: its [return] value is the value of
    the call; its exceptions go on up. A function whose body cannot fall
    through has body type [Py R Empty_set]. *)
Definition call {R R'} (f : Py R Empty_set) : Py R' R := λ s,
  match f s with
  | (Val a, _) => match a with end
  | (Ret r, s') => (Val r, s')
  | (Exn e, s') => (Exn e, s')
  end.

(** *** Primitive statements *)

Definition probe {R} (found : bool) (p : Probe) : Py R bool := λ s,
  (Val found, {| st_world := st_world s; st_trace := st_trace s;
                 st_probes := st_probes s ++ [p]; st_out := st_out s |}).

(** [os.path.exists(path)] *)
Definition exists_ {R} (path : string) : Py R bool := λ s,
  let found := os_path_exists path (st_world s) in
  probe found (PExists path found) s.

(** [os.path.isdir(path)] *)
Definition isdir {R} (path : string) : Py R bool := λ s,
  let found := os_path_isdir path (st_world s) in
  probe found (PIsDir path found) s.

Definition glob {R} (pat : string) : Py R (list string) :=
  λ s, (Val (glob_glob pat (st_world s)), s).

(** [os.environ[k]] *)
Definition environ {R} (k : string) : Py R string := λ s,
  match os_environ !! k with
  | Some v => (Val v, s)
  | None => (Exn (KeyError k), s)
  end.

(** [with open(file) as stream: yaml.load(stream)] *)
Definition load {R} (file : string) : Py R yaml := λ s,
  match yaml_load file (st_world s) with
  | Some d => (Val d, s)
  | None => (Exn LoadError, s)
  end.

Definition out {R} (o : Output) : Py R () := λ s,
  (Val (), {| st_world := st_world s; st_trace := st_trace s;
              st_probes := st_probes s; st_out := st_out s ++ [o] |}).

Definition print {R} (msg : string) : Py R () := out (OutPrint msg).
Definition error {R} (msg : string) : Py R () := out (OutError msg).
Definition banner {R} (title : yaml) : Py R () := out (OutBanner title).

(** [rv, _ = io.run(cmd, cwd, quiet)]; the call and its result are
    recorded. *)
Definition run {R} (cmd cwd : string) (quiet : bool) : Py R bool := λ s,
  let '((rv, _), w') := io_run cmd cwd quiet (st_world s) in
  (Val rv, {| st_world := w';
              st_trace := st_trace s ++ [(Inv cmd cwd quiet, rv)];
              st_probes := st_probes s; st_out := st_out s |}).

Definition get_confirmation_word {R} : Py R string := λ s,
  let '(word, w') := io_get_confirmation_word (st_world s) in
  (Val word, {| st_world := w'; st_trace := st_trace s;
                st_probes := st_probes s; st_out := st_out s |}).

Definition input_ {R} (prompt : string) : Py R string := λ s,
  let '(line, w') := input prompt (st_world s) in
  (Val line, {| st_world := w'; st_trace := st_trace s;
                st_probes := st_probes s;
                st_out := st_out s ++ [OutPrompt prompt] |}).

(** *** Python expressions on document values *)

(** The value a [dict] holds under a key. *)
Fixpoint dict_get (m : list (string * yaml)) (k : string) : option yaml :=
  match m with
  | [] => None
  | (k', x) :: m' => if String.eqb k' k then Some x else dict_get m' k
  end.

(** [v[k]] with a string key. *)
Definition subscript (v : yaml) (k : string) : exn + yaml :=
  match v with
  | YMap m => match dict_get m k with
              | Some x => inr x
              | None => inl (KeyError k)
              end
  | _ => inl TypeError
  end.

(** [v[k1][k2]...] *)
Fixpoint get_path (v : yaml) (path : list string) : exn + yaml :=
  match path with
  | [] => inr v
  | k :: path' => match subscript v k with
                  | inr x => get_path x path'
                  | inl e => inl e
                  end
  end.

Definition field {R} (v : yaml) (path : list string) : Py R yaml := λ s,
  match get_path v path with
  | inr x => (Val x, s)
  | inl e => (Exn e, s)
  end.

(** [str(v)], what ['{}'.format(v)] inserts. *)
Definition py_str (v : yaml) : string :=
  match v with
  | YStr s => s
  | _ => py_repr v
  end.

(** A continuation byte of UTF-8: [10xxxxxx]. *)
Definition continuation (c : Ascii.ascii) : bool :=
  match c with
  | Ascii.Ascii _ _ _ _ _ _ b6 b7 => b7 && negb b6
  end.

(** The characters of a text: a character starts at every byte that is
    not a continuation byte, and takes the continuation bytes after it. *)
Fixpoint chars (s : string) : list string :=
  match s with
  | EmptyString => []
  | String c s' =>
      let rest := chars s' in
      match s', rest with
      | String c' _, ch :: rest' =>
          if continuation c' then String c ch :: rest'
          else String c "" :: rest
      | _, _ => String c "" :: rest
      end
  end.

(** What [for x in v] goes through: the items of a sequence, the
    characters of a string, the keys of a mapping in the order the
    mapping keeps them. *)
Definition py_iter (v : yaml) : exn + list yaml :=
  match v with
  | YList l => inr l
  | YStr s => inr (YStr <$> chars s)
  | YMap m => inr (YStr <$> m.*1)
  | _ => inl TypeError
  end.

Definition iter {R} (v : yaml) : Py R (list yaml) := λ s,
  match py_iter v with
  | inr l => (Val l, s)
  | inl e => (Exn e, s)
  end.

End Script.

(** ** The script *)

(** The parsed command line ([argparse.Namespace]). *)
Record Namespace : Type := {
  quiet : bool;
  cluster : bool;
  okd : bool;
  display_deployments : bool;
  skip_rendering : bool;
  skip_terraform : bool;
  skip_pre_openshift : bool;
  skip_openshift : bool;
  skip_post_openshift : bool;
  auto_acknowledge : bool;
  deployment : option string;
}.

(** The double-quote and newline characters of the messages. *)
Definition dq : string := String (Ascii.ascii_of_nat 34) "".
Definition nl : string := String (Ascii.ascii_of_nat 10) "".

Section Main.
Context `{Ext : Externals}.

(** [def _main(cli_args, deployment_name)] *)
Definition _main (cli_args : Namespace) (deployment_name : string)
    : Py bool Empty_set :=
  let deployment_file := "deployments/" +:+ deployment_name +:+ ".yaml" in
  found ← exists_ deployment_file;
  when_ (negb found) (
    error ("No config file (" +:+ deployment_file +:+ ") for an " +:+ dq
           +:+ deployment_name +:+ dq +:+ " deployment");;
    return_ false);;
  deployment ← load deployment_file;

  (* There must be an openshift/inventories directory *)
  inventory_dir ← field deployment ["openshift"; "inventory_dir"];
  present ← isdir ("openshift/inventories/" +:+ py_str inventory_dir);
  when_ (negb present) (
    error ("Missing " +:+ dq +:+ "openshift/inventories" +:+ dq
           +:+ " directory");;
    print ("Expected to find the inventory directory " +:+ dq
           +:+ py_str inventory_dir +:+ dq +:+ " but it was not there.");;
    print ("Every deployment must have an " +:+ dq +:+ "inventories" +:+ dq
           +:+ " directory");;
    return_ false);;

  (* Hello *)
  name ← field deployment ["name"];
  banner name;;
  when_ (negb (auto_acknowledge cli_args)) (
    confirmation_word ← get_confirmation_word;
    let target := if cluster cli_args then "CREATE the Cluster"
                  else "INSTALL OpenShift" in
    confirmation ← input_ ("Enter " +:+ dq +:+ confirmation_word +:+ dq
                           +:+ " to " +:+ target +:+ ": ");
    when_ (negb (String.eqb confirmation confirmation_word)) (
      print "Phew! That was close!";;
      return_ true));;

  (* Render (jinja2 files) *)
  when_ (negb (skip_rendering cli_args)) (
    let cmd := "./render.py " +:+ deployment_name in
    let cwd := "." in
    rv ← run cmd cwd (quiet cli_args);
    when_ (negb rv) (return_ false));;

  (* Ansible (A specific version) *)
  rv ← run "pip install --upgrade pip" "." (quiet cli_args);
  when_ (negb rv) (return_ false);;

  version ← field deployment ["ansible"; "version"];
  rv ← run ("pip install ansible==" +:+ py_str version) "." (quiet cli_args);
  when_ (negb rv) (return_ false);;

  t_dir ← field deployment ["terraform"; "dir"];
  when_ (cluster cli_args) (

    (* Terraform *)
    when_ (negb (skip_terraform cli_args)) (
      let cmd := "terraform init" in
      let cwd := "terraform/" +:+ py_str t_dir in
      rv ← run cmd cwd (quiet cli_args);
      when_ (negb rv) (return_ false);;

      let cmd := "terraform apply -auto-approve -state=.terraform."
                 +:+ deployment_name in
      let cwd := "terraform/" +:+ py_str t_dir in
      rv ← run cmd cwd (quiet cli_args);
      when_ (negb rv) (return_ false));;

    (* Ansible: run the bastion site file. *)
    when_ (negb (skip_pre_openshift cli_args)) (
      let extra_env := "" in
      generate_cert ← field deployment ["cluster"; "master"; "generate_cert"];
      extra_env ←
        (if truthy generate_cert then
           email ← environ "TF_VAR_master_certbot_email";
           let extra_env := extra_env +:+ " -e master_cert_email=" +:+ email in
           public_hostname ← field deployment ["cluster"; "public_hostname"];
           mret (extra_env +:+ " -e public_hostname="
                 +:+ py_str public_hostname)
         else mret extra_env);
      keypair_name ← environ "TF_VAR_keypair_name";
      let cmd := "ansible-playbook site.yaml " +:+ extra_env
                 +:+ " -e keypair_name=" +:+ keypair_name
                 +:+ " -e deployment=" +:+ py_str inventory_dir in
      let cwd := "ansible/bastion" in
      rv ← run cmd cwd (quiet cli_args);
      when_ (negb rv) (return_ false));;

    when_ (negb (skip_terraform cli_args)) (
      (* Now expose the Bastion's IP *)
      let cmd := "terraform output -state=.terraform." +:+ deployment_name in
      let cwd := "terraform/" +:+ py_str t_dir in
      rv ← run cmd cwd (quiet cli_args);
      when_ (negb rv) (return_ false));;

    (* Leave. *)
    return_ true);;

  (* If we get here we're installing OpenShift. *)

  (* Clone (OpenShift Ansible) *)
  cloned ← exists_ "openshift-ansible";
  when_ (negb cloned) (
    let cmd := "git clone https://github.com/openshift/openshift-ansible.git"
               +:+ " --no-checkout" in
    let cwd := "." in
    rv ← run cmd cwd (quiet cli_args);
    when_ (negb rv) (return_ false));;

  (* Checkout the required OpenShift Ansible TAG *)
  ansible_tag ← field deployment ["openshift"; "ansible_tag"];
  rv ← run ("git checkout tags/" +:+ py_str ansible_tag) "openshift-ansible"
           (quiet cli_args);
  when_ (negb rv) (return_ false);;

  (* Ansible (Pre-OpenShift) *)
  when_ (negb (skip_pre_openshift cli_args)) (
    let extra_env := "" in
    generate_cert ← field deployment ["cluster"; "master"; "generate_cert"];
    extra_env ←
      (if truthy generate_cert then
         public_hostname ← field deployment ["cluster"; "public_hostname"];
         mret (extra_env +:+ " -e public_hostname="
               +:+ py_str public_hostname)
       else mret extra_env);
    let cmd := "ansible-playbook site.yaml " +:+ extra_env
               +:+ " -i ../../openshift/inventories/"
               +:+ py_str inventory_dir +:+ "/inventory" in
    let cwd := "ansible/pre-os" in
    rv ← run cmd cwd (quiet cli_args);
    when_ (negb rv) (return_ false));;

  (* Ansible (OpenShift) *)
  when_ (negb (skip_openshift cli_args)) (
    plays ← field deployment ["openshift"; "play"];
    plays ← iter plays;
    for_each plays (λ play,
      let cmd := "ansible-playbook ../openshift-ansible/playbooks/"
                 +:+ py_str play
                 +:+ " -i inventories/" +:+ py_str inventory_dir
                 +:+ "/inventory" in
      let cwd := "openshift" in
      rv ← run cmd cwd (quiet cli_args);
      when_ (negb rv) (return_ false)));;

  (* Ansible (Post-OpenShift) *)
  when_ (negb (skip_post_openshift cli_args)) (
    let cmd := "ansible-playbook site.yaml" in
    let cwd := "ansible/post-os" in
    rv ← run cmd cwd (quiet cli_args);
    when_ (negb rv) (return_ false));;

  (* OK if we get here. *)
  return_ true.

(** [os.path.basename(path)]: what follows the last slash. *)
Fixpoint basename_from (acc path : string) : string :=
  match path with
  | EmptyString => acc
  | String c rest =>
      if Ascii.eqb c (Ascii.ascii_of_nat 47) then basename_from "" rest
      else basename_from (acc +:+ String c "") rest
  end.
Definition basename (path : string) : string := basename_from "" path.

(** [s[:-5]] *)
Definition strip_suffix5 (s : string) : string :=
  String.substring 0 (String.length s - 5) s.

Definition sys_exit {A} (code : Z) : Py Z A := return_ code.

(** [not ARGS.deployment]: unset or empty. *)
Definition unnamed (d : option string) : bool :=
  match d with
  | None => true
  | Some s => String.eqb s ""
  end.

(** The body of [if __name__ == '__main__'], after [PARSER.parse_args()]
    has produced [ARGS]. *)
Definition __main__ (ARGS : Namespace) : Py Z () :=
  (* User must have specified 'cluster' or 'open-shift' *)
  when_ (negb (cluster ARGS) && negb (okd ARGS)) (
    print "Must specify --cluster or --okd";;
    sys_exit 1);;

  deployments ← glob "deployments/*.yaml";
  (* If there are no deployments, we can do nothing! *)
  when_ (bool_decide (deployments = [])) (
    print "The deployments directory is empty";;
    sys_exit 1);;

  (* 1. 'display deployments' *)
  when_ (display_deployments ARGS) (
    for_each deployments (λ deployment,
      print (strip_suffix5 (basename deployment)));;
    sys_exit 0);;

  (* If a deployment wasn't named, and there's more than one,
     then the user must name one... *)
  deployment_file ←
    (if unnamed (deployment ARGS) then
       when_ (bool_decide (1 < length deployments)) (
         print ("ERROR: You need to supply the name of a deployment." +:+ nl
                +:+ "       The following are available:");;
         for_each deployments (λ deployment,
           print (strip_suffix5 (basename deployment)));;
         sys_exit 1);;
       match deployments with
       | first :: _ => mret (strip_suffix5 (basename first))
       | [] => raise IndexError
       end
     else mret (default "" (deployment ARGS)));

  (* Load the deployment's configuration file... *)
  let config_file := "deployments/" +:+ deployment_file +:+ ".yaml" in
  found ← exists_ config_file;
  when_ (negb found) (
    error ("No config file (" +:+ config_file +:+ ") for an " +:+ dq
           +:+ deployment_file +:+ dq +:+ " deployment");;
    sys_exit 1);;

  (* Go... *)
  success ← call (_main ARGS deployment_file);

  when_ (negb success) (
    error "Failed to start cluster";;
    (* Return non-zero exit value to the shell... *)
    sys_exit 1).

(** The exit status of the process: [sys.exit]'s argument, 0 when the
    script runs off its end, 1 when an exception goes uncaught. *)
Definition exit_status {A} (r : Res Z A) : Z :=
  match r with
  | Val _ => 0
  | Ret code => code
  | Exn _ => 1
  end.

End Main.

(** ** The pipeline as the script lays it out *)

(** The blocks of [_main] between the confirmation and the final
    [return True], named after their banner comments. [Terraform] is the
    init and apply pair, [TerraformOutput] the later output command under
    the same flag. *)
Inductive Stage : Type :=
  | Render
  | AnsibleVersion
  | Terraform
  | Bastion
  | TerraformOutput
  | Clone
  | PreOpenShift
  | OpenShift
  | PostOpenShift.

#[global] Instance Stage_eq_dec : EqDecision Stage.
Proof. solve_decision. Defined.

(** The stages of each mode, in the order of the script. *)
Definition declared_stages (cluster_mode : bool) : list Stage :=
  if cluster_mode
  then [Render; AnsibleVersion; Terraform; Bastion; TerraformOutput]
  else [Render; AnsibleVersion; Clone; PreOpenShift; OpenShift; PostOpenShift].

(** The skip flag that guards a stage; [AnsibleVersion] and [Clone] have
    none. *)
Definition skipped (cli_args : Namespace) (st : Stage) : bool :=
  match st with
  | Render => skip_rendering cli_args
  | AnsibleVersion => false
  | Terraform | TerraformOutput => skip_terraform cli_args
  | Bastion | PreOpenShift => skip_pre_openshift cli_args
  | Clone => false
  | OpenShift => skip_openshift cli_args
  | PostOpenShift => skip_post_openshift cli_args
  end.

(** [ARGS] with the [--okd] flag set to [b]. *)
Definition with_okd (b : bool) (ARGS : Namespace) : Namespace := {|
  quiet := quiet ARGS; cluster := cluster ARGS; okd := b;
  display_deployments := display_deployments ARGS;
  skip_rendering := skip_rendering ARGS;
  skip_terraform := skip_terraform ARGS;
  skip_pre_openshift := skip_pre_openshift ARGS;
  skip_openshift := skip_openshift ARGS;
  skip_post_openshift := skip_post_openshift ARGS;
  auto_acknowledge := auto_acknowledge ARGS;
  deployment := deployment ARGS;
|}.

(** The deployment the script goes on with: the one named on the command
    line, or the only one there is. *)
Definition selected (ARGS : Namespace) (deployments : list string)
    : option string :=
  if unnamed (deployment ARGS) then
    match deployments with
    | [first] => Some (strip_suffix5 (basename first))
    | _ => None
    end
  else deployment ARGS.

Definition state_file (deployment_name : string) : string :=
  ".terraform." +:+ deployment_name.

(** The state-file name as the specification words it. *)
Definition spec_state_file (deployment_name : string) : string :=
  ".state." +:+ deployment_name.

(** [drop n s] is [s[n:]]; [ends_with suffix s] is [s.endswith(suffix)]. *)
Fixpoint drop_chars (n : nat) (s : string) : string :=
  match n, s with
  | S n', String _ s' => drop_chars n' s'
  | _, _ => s
  end.

Definition ends_with (suffix s : string) : bool :=
  String.eqb (drop_chars (String.length s - String.length suffix) s) suffix.

(** A command names state file [file] when it ends in [-state=file]. *)
Definition names_state_file (cmd file : string) : bool :=
  ends_with (" -state=" +:+ file) cmd.

Definition is_terraform_apply (i : Invocation) : bool :=
  String.prefix "terraform apply" (inv_cmd i).
Definition is_terraform_output (i : Invocation) : bool :=
  String.prefix "terraform output" (inv_cmd i).

Definition pip_upgrade (q : bool) : Invocation :=
  Inv "pip install --upgrade pip" "." q.

Definition clone_cmd (q : bool) : Invocation :=
  Inv "git clone https://github.com/openshift/openshift-ansible.git --no-checkout"
      "." q.

Definition email_var : string := "TF_VAR_master_certbot_email".
Definition keypair_var : string := "TF_VAR_keypair_name".

Section Plan.
Context `{Ext : Externals}.

(** Whether the run gets past the confirmation: the flag is set, or the
    operator types the word back. *)
Definition confirmed (cli_args : Namespace) (w : World) : bool :=
  auto_acknowledge cli_args ||
  (let '(word, w1) := io_get_confirmation_word w in
   let target := if cluster cli_args then "CREATE the Cluster"
                 else "INSTALL OpenShift" in
   let '(answer, _) := input ("Enter " +:+ dq +:+ word +:+ dq +:+ " to "
                              +:+ target +:+ ": ") w1 in
   String.eqb answer word).

(** The value of a field, and the text it formats to; [YNull] when the
    field is absent (a run that reads an absent field stops there). *)
Definition val_at (doc : yaml) (path : list string) : yaml :=
  match get_path doc path with
  | inr v => v
  | inl _ => YNull
  end.

Definition str_at (doc : yaml) (path : list string) : string :=
  py_str (val_at doc path).

Definition env_at (k : string) : string := default "" (os_environ !! k).

Definition generate_cert_of (doc : yaml) : bool :=
  truthy (val_at doc ["cluster"; "master"; "generate_cert"]).

(** What a loop over [v] goes through; nothing when it cannot. *)
Definition items_of (v : yaml) : list yaml :=
  match py_iter v with
  | inr l => l
  | inl _ => []
  end.

Definition plays_of (doc : yaml) : list yaml :=
  items_of (val_at doc ["openshift"; "play"]).

Definition pip_ansible (version : string) (q : bool) : Invocation :=
  Inv ("pip install ansible==" +:+ version) "." q.

Definition checkout_cmd (tag : string) (q : bool) : Invocation :=
  Inv ("git checkout tags/" +:+ tag) "openshift-ansible" q.

Definition play_cmd (inventory_dir : string) (q : bool) (play : yaml)
    : Invocation :=
  Inv ("ansible-playbook ../openshift-ansible/playbooks/" +:+ py_str play
       +:+ " -i inventories/" +:+ inventory_dir +:+ "/inventory")
      "openshift" q.

Definition terraform_apply (deployment_name t_dir : string) (q : bool)
    : Invocation :=
  Inv ("terraform apply -auto-approve -state=" +:+ state_file deployment_name)
      ("terraform/" +:+ t_dir) q.

Definition terraform_output (deployment_name t_dir : string) (q : bool)
    : Invocation :=
  Inv ("terraform output -state=" +:+ state_file deployment_name)
      ("terraform/" +:+ t_dir) q.

Definition bastion_cmd (doc : yaml) (q : bool) : Invocation :=
  let extra_env :=
    if generate_cert_of doc
    then (" -e master_cert_email=" +:+ env_at email_var)
         +:+ " -e public_hostname=" +:+ str_at doc ["cluster"; "public_hostname"]
    else "" in
  Inv ("ansible-playbook site.yaml " +:+ extra_env
       +:+ " -e keypair_name=" +:+ env_at keypair_var
       +:+ " -e deployment=" +:+ str_at doc ["openshift"; "inventory_dir"])
      "ansible/bastion" q.

Definition pre_os_cmd (doc : yaml) (q : bool) : Invocation :=
  let extra_env :=
    if generate_cert_of doc
    then " -e public_hostname=" +:+ str_at doc ["cluster"; "public_hostname"]
    else "" in
  Inv ("ansible-playbook site.yaml " +:+ extra_env
       +:+ " -i ../../openshift/inventories/"
       +:+ str_at doc ["openshift"; "inventory_dir"] +:+ "/inventory")
      "ansible/pre-os" q.

(** The clone directory was looked for and not found. *)
Definition clone_missing (probes : list Probe) : bool :=
  bool_decide (PExists "openshift-ansible" false ∈ probes).

(** The commands of a stage, in order. [must_clone] says whether the
    clone directory was found missing. *)
Definition stage_commands (cli_args : Namespace) (deployment_name : string)
    (doc : yaml) (must_clone : bool) (st : Stage) : list Invocation :=
  let q := quiet cli_args in
  match st with
  | Render => [Inv ("./render.py " +:+ deployment_name) "." q]
  | AnsibleVersion =>
      [pip_upgrade q; pip_ansible (str_at doc ["ansible"; "version"]) q]
  | Terraform =>
      [Inv "terraform init" ("terraform/" +:+ str_at doc ["terraform"; "dir"]) q;
       terraform_apply deployment_name (str_at doc ["terraform"; "dir"]) q]
  | Bastion => [bastion_cmd doc q]
  | TerraformOutput =>
      [terraform_output deployment_name (str_at doc ["terraform"; "dir"]) q]
  | Clone =>
      (if must_clone then [clone_cmd q] else [])
      ++ [checkout_cmd (str_at doc ["openshift"; "ansible_tag"]) q]
  | PreOpenShift => [pre_os_cmd doc q]
  | OpenShift =>
      play_cmd (str_at doc ["openshift"; "inventory_dir"]) q <$> plays_of doc
  | PostOpenShift => [Inv "ansible-playbook site.yaml" "ansible/post-os" q]
  end.

(** The commands of the stages that are not skipped, in declared order. *)
Definition planned (cli_args : Namespace) (deployment_name : string)
    (doc : yaml) (must_clone : bool) : list Invocation :=
  mjoin (stage_commands cli_args deployment_name doc must_clone <$>
         List.filter (λ st, negb (skipped cli_args st))
                     (declared_stages (cluster cli_args))).

(** A traced command keeps to the state-file convention of the
    deployment called [name]: an apply or output command is the one
    command line that names [state_file name]. *)
Definition uses_state_file (name : string) (x : Invocation * bool) : Prop :=
  (is_terraform_apply x.1 = true →
     inv_cmd x.1 = "terraform apply -auto-approve -state=" +:+ state_file name)
  ∧ (is_terraform_output x.1 = true →
     inv_cmd x.1 = "terraform output -state=" +:+ state_file name)
  ∧ (is_terraform_apply x.1 || is_terraform_output x.1 = true →
     names_state_file (inv_cmd x.1) (state_file name) = true).

(** A field the document has. *)
Definition present (doc : yaml) (path : list string) : Prop :=
  get_path doc path = inr (val_at doc path).

(** What it takes for a run of [_main] to get to its first command: the
    deployment file is there and loads as [doc], the inventory directory
    exists, the document has a name, and the confirmation passes. *)
Definition past_gate (cli_args : Namespace) (name : string) (w : World)
    (doc : yaml) : Prop :=
  os_path_exists ("deployments/" +:+ name +:+ ".yaml") w = true
  ∧ yaml_load ("deployments/" +:+ name +:+ ".yaml") w = Some doc
  ∧ present doc ["openshift"; "inventory_dir"]
  ∧ os_path_isdir ("openshift/inventories/"
                   +:+ str_at doc ["openshift"; "inventory_dir"]) w = true
  ∧ present doc ["name"]
  ∧ confirmed cli_args w = true.

(** No command of the trace failed. *)
Definition no_failure (trace : list (Invocation * bool)) : bool :=
  forallb snd trace.

(** The command of the rendering stage. *)
Definition render_cmd (deployment_name : string) (q : bool) : Invocation :=
  Inv ("./render.py " +:+ deployment_name) "." q.

(** What the rendering stage leaves in the trace when it does not fail,
    and a trace that starts that way. *)
Definition rendering (cli_args : Namespace) (name : string)
    : list (Invocation * bool) :=
  if skip_rendering cli_args then []
  else [(render_cmd name (quiet cli_args), true)].


(** The command of cluster mode's pre-install stage. *)
Definition is_bastion (i : Invocation) : bool :=
  String.eqb (inv_cwd i) "ansible/bastion".

(** What the script has read by the time the command of cluster mode's
    pre-install stage is in the trace: the keypair variable, and the
    e-mail variable when the document asks for a certificate. *)
Definition bastion_ready (cli_args : Namespace) (doc : yaml)
    (x : Invocation * bool) : Prop :=
  is_bastion x.1 = true →
  cluster cli_args = true ∧ skip_pre_openshift cli_args = false
  ∧ is_Some (os_environ !! keypair_var)
  ∧ (generate_cert_of doc = true → is_Some (os_environ !! email_var)).

(** No command of the trace is the one of the pre-install stage. *)
Definition no_bastion (trace : list (Invocation * bool)) : bool :=
  forallb (λ x, negb (is_bastion x.1)) trace.

(** [s.startswith(pre)] *)
Fixpoint starts_with (pre s : string) : bool :=
  match pre, s with
  | "", _ => true
  | String a pre', String b s' => Ascii.eqb a b && starts_with pre' s'
  | String _ _, "" => false
  end.

(** The entries of a trace that are the clone, a tag checkout; and how
    often a trace clones. *)
Definition is_clone (x : Invocation * bool) : bool :=
  String.eqb (inv_cmd x.1) (inv_cmd (clone_cmd false)).
Definition is_checkout (x : Invocation * bool) : bool :=
  starts_with "git checkout tags/" (inv_cmd x.1).
Definition clones (trace : list (Invocation * bool)) : nat :=
  length (List.filter is_clone trace).

(** The clone directory was looked for and found. *)
Definition clone_found (probes : list Probe) : bool :=
  bool_decide (PExists "openshift-ansible" true ∈ probes).

(** The commands of a trace, and the trace of commands that all succeed. *)
Definition commands (trace : list (Invocation * bool)) : list Invocation :=
  fst <$> trace.
Definition succeeded (cmds : list Invocation) : list (Invocation * bool) :=
  (λ i, (i, true)) <$> cmds.

(** The world in which the first command runs: the one the confirmation
    leaves. *)
Definition gate_world (cli_args : Namespace) (w : World) : World :=
  if auto_acknowledge cli_args then w
  else
    let '(word, w1) := io_get_confirmation_word w in
    let target := if cluster cli_args then "CREATE the Cluster"
                  else "INSTALL OpenShift" in
    (input ("Enter " +:+ dq +:+ word +:+ dq +:+ " to " +:+ target +:+ ": ")
           w1).2.

(** What the world answers to a command, and the world the command
    leaves. *)
Definition result_of (i : Invocation) (w : World) : bool :=
  (io_run (inv_cmd i) (inv_cwd i) (inv_quiet i) w).1.1.
Definition world_after (i : Invocation) (w : World) : World :=
  (io_run (inv_cmd i) (inv_cwd i) (inv_quiet i) w).2.

(** The world that commands leave when they are run one after the other
    and each succeeds; none when one of them fails. *)
Fixpoint after (cmds : list Invocation) (w : World) : option World :=
  match cmds with
  | [] => Some w
  | i :: cmds' =>
      if result_of i w then after cmds' (world_after i w) else None
  end.

(** The commands both modes start with: rendering unless skipped, and the
    two pip commands. *)
Definition prologue (cli_args : Namespace) (name : string) (doc : yaml)
    : list Invocation :=
  (if skip_rendering cli_args then []
   else [render_cmd name (quiet cli_args)])
  ++ [pip_upgrade (quiet cli_args);
      pip_ansible (str_at doc ["ansible"; "version"]) (quiet cli_args)].

(** The commands of cluster mode before the bastion playbook. *)
Definition before_bastion (cli_args : Namespace) (name : string) (doc : yaml)
    : list Invocation :=
  prologue cli_args name doc
  ++ (if skip_terraform cli_args then []
      else [Inv "terraform init"
                ("terraform/" +:+ str_at doc ["terraform"; "dir"])
                (quiet cli_args);
            terraform_apply name (str_at doc ["terraform"; "dir"])
                            (quiet cli_args)]).

(** The trace has the commands before the bastion playbook, all
    successful, and then the bastion playbook; when that fails it is the
    last command and the result is [False]. *)
Definition bastion_runs (cli_args : Namespace) (name : string) (doc : yaml)
    (res : Res bool Empty_set) (t : list (Invocation * bool)) : Prop :=
  ∃ b rest,
    t = succeeded (before_bastion cli_args name doc)
        ++ (bastion_cmd doc (quiet cli_args), b) :: rest
    ∧ (b = false → rest = [] ∧ res = Ret false).

(** What the git stage leaves in the trace when it starts in world [wg]:
    the checkout alone when the clone directory is there; else the clone
    and, when the clone succeeds, the checkout in the world the clone
    left. *)
Definition git_entries (cli_args : Namespace) (doc : yaml) (wg : World)
    : list (Invocation * bool) :=
  let clone := clone_cmd (quiet cli_args) in
  let checkout :=
    checkout_cmd (str_at doc ["openshift"; "ansible_tag"]) (quiet cli_args) in
  if os_path_exists "openshift-ansible" wg
  then [(checkout, result_of checkout wg)]
  else if result_of clone wg
       then [(clone, true);
             (checkout, result_of checkout (world_after clone wg))]
       else [(clone, false)].

Definition is_git (x : Invocation * bool) : bool :=
  is_clone x || is_checkout x.

(** The git commands of a run are behind it: the trace is [t0] and then
    commands that are not git commands. *)
Definition git_behind (t0 : list (Invocation * bool))
    (p : list Probe) (t : list (Invocation * bool)) : Prop :=
  ∃ rest, t = t0 ++ rest ∧ existsb is_git rest = false.

(** What an install-mode run with result [res] and trace [t] did about
    the clone, when its git stage started in world [wg]. The trace is the
    commands before the stage, all successful, then the stage's own, then
    commands that are not git commands; when a git command fails nothing
    comes after it and the result is [False]. So the run cloned exactly
    when the directory was missing, and not twice, and it ran the tag
    checkout unless it had to clone and the clone failed. *)
Definition git_stage (cli_args : Namespace) (name : string) (doc : yaml)
    (wg : World) (res : Res bool Empty_set) (t : list (Invocation * bool))
    : Prop :=
  (∃ rest,
     t = succeeded (prologue cli_args name doc)
         ++ git_entries cli_args doc wg ++ rest
     ∧ existsb is_git rest = false
     ∧ (no_failure (git_entries cli_args doc wg) = false →
        rest = [] ∧ res = Ret false))
  ∧ existsb is_clone t = negb (os_path_exists "openshift-ansible" wg)
  ∧ clones t ≤ 1
  ∧ existsb is_checkout t
    = (os_path_exists "openshift-ansible" wg
       || result_of (clone_cmd (quiet cli_args)) wg).

(** A property of the world that no command and no exchange with the
    operator undoes. *)
Definition stable (I : World → Prop) : Prop :=
  (∀ cmd cwd q w, I w → I (io_run cmd cwd q w).2)
  ∧ (∀ w, I w → I (io_get_confirmation_word w).2)
  ∧ (∀ prompt w, I w → I (input prompt w).2).

(** The clone directory is there. *)
Definition cloned (w : World) : Prop :=
  os_path_exists "openshift-ansible" w = true.

(** A clone that succeeds leaves its directory, and nothing takes the
    directory away. *)
Definition clone_stays : Prop :=
  (∀ q w, result_of (clone_cmd q) w = true →
          cloned (world_after (clone_cmd q) w))
  ∧ stable cloned.

(** The commands of the git stage that starts in world [wg], and the
    commands of install mode between the pip commands and the play loop.  *)
Definition git_commands (cli_args : Namespace) (doc : yaml) (wg : World)
    : list Invocation :=
  (if os_path_exists "openshift-ansible" wg then []
   else [clone_cmd (quiet cli_args)])
  ++ [checkout_cmd (str_at doc ["openshift"; "ansible_tag"]) (quiet cli_args)].

Definition before_plays (cli_args : Namespace) (doc : yaml) (wg : World)
    : list Invocation :=
  git_commands cli_args doc wg
  ++ (if skip_pre_openshift cli_args then []
      else [pre_os_cmd doc (quiet cli_args)]).

(** The section of a trace made by the play loop. *)
Definition is_play (i : Invocation) : bool :=
  String.eqb (inv_cwd i) "openshift".

(** The entries of a trace made by the play loop. *)
Definition play_part (trace : list (Invocation * bool))
    : list (Invocation * bool) :=
  List.filter (λ x, is_play x.1) trace.

(** What a run with result [res] and trace [t] did about the plays of
    [doc], when its git stage started in world [wg] and the commands
    before the loop succeed. The trace starts with those commands, none
    of them a play command. Then either the commands of the whole play
    list follow, in order, all successful, and what comes after them is
    no play command; or the commands of the first [n] plays follow,
    successful, and the failed command of the next ends the trace, and
    the result is [False]. *)
Definition plays_in_order (cli_args : Namespace) (name : string) (doc : yaml)
    (wg : World) (res : Res bool Empty_set) (t : list (Invocation * bool))
    : Prop :=
  let cmd := play_cmd (str_at doc ["openshift"; "inventory_dir"])
                      (quiet cli_args) in
  let front := succeeded (prologue cli_args name doc
                          ++ before_plays cli_args doc wg) in
  play_part front = []
  ∧ ((∃ rest,
        t = front ++ succeeded (cmd <$> plays_of doc) ++ rest
        ∧ play_part rest = [])
     ∨ (∃ n p,
          plays_of doc !! n = Some p
          ∧ t = front ++ succeeded (cmd <$> take n (plays_of doc))
                      ++ [(cmd p, false)]
          ∧ res = Ret false)).

(** A file name without a slash. *)
Fixpoint no_slash (s : string) : bool :=
  match s with
  | EmptyString => true
  | String c rest =>
      negb (Ascii.eqb c (Ascii.ascii_of_nat 47)) && no_slash rest
  end.

(** What the script prints for a directory listing: the name of each
    deployment, in the order of the listing. *)
Definition listing (deployments : list string) : list Output :=
  (λ d, OutPrint (strip_suffix5 (basename d))) <$> deployments.

(** The state in which [__main__] calls [_main]: nothing run, nothing
    written, and the configuration file looked for and found. *)
Definition handed_over (w : World) (name : string) : State :=
  {| st_world := w; st_trace := [];
     st_probes := [PExists ("deployments/" +:+ name +:+ ".yaml") true];
     st_out := [] |}.

(** What [_main] itself writes for the operator of a deployment that has
    its inventory: the banner, then unless acknowledged beforehand the
    prompt, and the parting words when the answer is not the word. *)
Definition main_output (cli_args : Namespace) (doc : yaml) (w : World)
    : list Output :=
  OutBanner (val_at doc ["name"])
  :: (if auto_acknowledge cli_args then []
      else
        let '(word, w1) := io_get_confirmation_word w in
        let prompt :=
          "Enter " +:+ dq +:+ word +:+ dq +:+ " to "
          +:+ (if cluster cli_args then "CREATE the Cluster"
               else "INSTALL OpenShift") +:+ ": " in
        let '(answer, _) := input prompt w1 in
        OutPrompt prompt
        :: (if String.eqb answer word then []
            else [OutPrint "Phew! That was close!"])).

(** The commands of cluster mode: terraform and the bastion playbook; and
    those of install mode: git, and the playbooks of the three OpenShift
    stages. *)
Definition is_cluster_command (x : Invocation * bool) : bool :=
  starts_with "terraform " (inv_cmd x.1) || is_bastion x.1.
Definition is_install_command (x : Invocation * bool) : bool :=
  starts_with "git " (inv_cmd x.1)
  || String.eqb (inv_cwd x.1) "ansible/pre-os"
  || is_play x.1
  || String.eqb (inv_cwd x.1) "ansible/post-os".

(** A trace in which only the last command may have failed, and then the
    result is [False]; a [False] without a failed command comes before any
    command. *)
Definition stops_at_first_failure (res : Res bool Empty_set)
    (t : list (Invocation * bool)) : Prop :=
  ∃ cmds,
    (t = succeeded cmds ∧ (res = Ret false → cmds = []))
    ∨ (∃ i, t = succeeded cmds ++ [(i, false)] ∧ res = Ret false).

End Plan.

(** ** A world to run the script in *)

(** A small file system, an environment, parsed documents by path, the
    commands that fail, and the operator at the prompt. A successful
    [git clone] leaves its directory behind. *)
Record Sandbox : Type := {
  sb_dirs : list string;
  sb_files : list string;
  sb_docs : gmap string yaml;
  sb_failing : list string;
  sb_word : string;
  sb_answer : string;
}.

Definition is_deployment_file (path : string) : bool :=
  String.prefix "deployments/" path
  && String.eqb (String.substring (String.length path - 5) 5 path) ".yaml".

Definition git_clone : string :=
  "git clone https://github.com/openshift/openshift-ansible.git --no-checkout".

Definition sandbox_run (cmd : string) (w : Sandbox) : (bool * string) * Sandbox :=
  if bool_decide (cmd ∈ sb_failing w) then ((false, ""), w)
  else if String.eqb cmd git_clone then
    ((true, ""),
     {| sb_dirs := "openshift-ansible" :: sb_dirs w; sb_files := sb_files w;
        sb_docs := sb_docs w;
        sb_failing := sb_failing w; sb_word := sb_word w;
        sb_answer := sb_answer w |})
  else ((true, ""), w).

Definition sandbox (env : gmap string string) : Externals := {|
  World := Sandbox;
  os_path_exists path w :=
    bool_decide (path ∈ sb_dirs w) || bool_decide (path ∈ sb_files w);
  os_path_isdir path w := bool_decide (path ∈ sb_dirs w);
  os_environ := env;
  glob_glob _ w := filter (λ p, is_deployment_file p = true) (sb_files w);
  yaml_load path w := sb_docs w !! path;
  io_run cmd _ _ w := sandbox_run cmd w;
  input _ w := (sb_answer w, w);
  io_get_confirmation_word w := (sb_word w, w);
  py_repr v := match v with
               | YNull => "None"
               | YBool true => "True"
               | YBool false => "False"
               | _ => "<object>"
               end;
|}.

Definition demo_env : gmap string string :=
  list_to_map [("TF_VAR_master_certbot_email", "ops@example.org");
               ("TF_VAR_keypair_name", "abc")].

(** A complete deployment document. *)
Definition demo_doc (plays : list string) (generate_cert : bool) : yaml :=
  YMap ([
    ("name", YStr "demo");
    ("openshift", YMap ([
        ("inventory_dir", YStr "standard");
        ("ansible_tag", YStr "openshift-ansible-3.11.16-1");
        ("play", YList (YStr <$> plays))]));
    ("ansible", YMap ([("version", YStr "2.7.5")]));
    ("terraform", YMap ([("dir", YStr "scaleway")]));
    ("cluster", YMap ([
        ("master", YMap ([("generate_cert", YBool generate_cert)]));
        ("public_hostname", YStr "okd.example.org")]))]).

Definition demo_world (doc : yaml) (failing : list string)
    (answer : string) : Sandbox := {|
  sb_dirs := ["openshift/inventories/standard"];
  sb_files := ["deployments/demo.yaml"];
  sb_docs := {[ "deployments/demo.yaml" := doc ]};
  sb_failing := failing;
  sb_word := "walrus";
  sb_answer := answer;
|}.

Definition install_args : Namespace := {|
  quiet := false; cluster := false; okd := true;
  display_deployments := false;
  skip_rendering := false; skip_terraform := false;
  skip_pre_openshift := false; skip_openshift := false;
  skip_post_openshift := false;
  auto_acknowledge := true; deployment := Some "demo";
|}.

Definition cluster_args : Namespace := {|
  quiet := false; cluster := true; okd := false;
  display_deployments := false;
  skip_rendering := false; skip_terraform := false;
  skip_pre_openshift := false; skip_openshift := false;
  skip_post_openshift := false;
  auto_acknowledge := true; deployment := Some "demo";
|}.

Definition both_args : Namespace := {|
  quiet := false; cluster := true; okd := true;
  display_deployments := false;
  skip_rendering := false; skip_terraform := false;
  skip_pre_openshift := false; skip_openshift := false;
  skip_post_openshift := false;
  auto_acknowledge := true; deployment := Some "demo";
|}.

(** The play command line of the demo inventory. *)
Definition demo_play (play : string) : string :=
  "ansible-playbook ../openshift-ansible/playbooks/" +:+ play
  +:+ " -i inventories/standard/inventory".

(** The demo world without its inventory directory. *)
Definition no_inventory_world : Sandbox := {|
  sb_dirs := [];
  sb_files := ["deployments/demo.yaml"];
  sb_docs := {[ "deployments/demo.yaml" := demo_doc ["A"; "B"; "C"] true ]};
  sb_failing := [];
  sb_word := "walrus";
  sb_answer := "";
|}.

(** The sandbox with the demo environment, and a fresh state in it. *)
Definition demo : Externals := sandbox demo_env.
Definition boot (w : Sandbox) : State (Ext := demo) :=
  initial (Ext := demo) w.

Definition no_inventory_run : Res bool Empty_set * State (Ext := demo) :=
  Eval vm_compute in
    _main (Ext := demo) install_args "demo" (boot no_inventory_world).

(** A cluster-mode run of the demo deployment in which every command
    succeeds. *)
Definition cluster_world : Sandbox :=
  demo_world (demo_doc ["A"; "B"; "C"] true) [] "".

Definition cluster_run : Res bool Empty_set * State (Ext := demo) :=
  Eval vm_compute in
    _main (Ext := demo) cluster_args "demo" (boot cluster_world).

(** Install mode with the confirmation prompt; the operator of
    [cluster_world] answers with an empty line. *)
Definition prompting_args : Namespace := {|
  quiet := false; cluster := false; okd := true;
  display_deployments := false;
  skip_rendering := false; skip_terraform := false;
  skip_pre_openshift := false; skip_openshift := false;
  skip_post_openshift := false;
  auto_acknowledge := false; deployment := Some "demo";
|}.

Definition declined_run : Res bool Empty_set * State (Ext := demo) :=
  Eval vm_compute in
    _main (Ext := demo) prompting_args "demo" (boot cluster_world).

Definition declined_process : Res Z () * State (Ext := demo) :=
  Eval vm_compute in __main__ (Ext := demo) prompting_args (boot cluster_world).

(** The script run with both mode flags set. *)
Definition both_process : Res Z () * State (Ext := demo) :=
  Eval vm_compute in __main__ (Ext := demo) both_args (boot cluster_world).

Definition no_mode_args : Namespace := with_okd false prompting_args.

Definition no_mode_process : Res Z () * State (Ext := demo) :=
  Eval vm_compute in __main__ (Ext := demo) no_mode_args (boot cluster_world).

(** The sandbox with no environment variable set. *)
Definition bare : Externals := sandbox ∅.

(** The demo deployment without a certificate. *)
Definition plain_world : Sandbox :=
  demo_world (demo_doc ["A"; "B"; "C"] false) [] "".

(** Cluster mode with nothing in the environment: with a certificate asked
    for, and without. *)
Definition no_email_run : Res bool Empty_set * State (Ext := bare) :=
  Eval vm_compute in
    _main (Ext := bare) cluster_args "demo" (initial (Ext := bare) cluster_world).

Definition no_keypair_run : Res bool Empty_set * State (Ext := bare) :=
  Eval vm_compute in
    _main (Ext := bare) cluster_args "demo" (initial (Ext := bare) plain_world).

(** The sandbox with the keypair variable set and nothing else, and
    cluster mode there for the deployment without a certificate. *)
Definition keypair_only : Externals :=
  sandbox (list_to_map [("TF_VAR_keypair_name", "abc")]).

Definition keypair_only_run
    : Res bool Empty_set * State (Ext := keypair_only) :=
  Eval vm_compute in
    _main (Ext := keypair_only) cluster_args "demo"
      (initial (Ext := keypair_only) plain_world).



(** Install mode twice in a row, the second time in the world the first
    run left. *)
Definition first_install_run : Res bool Empty_set * State (Ext := demo) :=
  Eval vm_compute in
    _main (Ext := demo) install_args "demo" (boot cluster_world).

Definition second_install_run : Res bool Empty_set * State (Ext := demo) :=
  Eval vm_compute in
    _main (Ext := demo) install_args "demo"
      (boot (st_world first_install_run.2)).

(** The worlds in which the git stages of the two runs start. *)
Definition first_stage_world : Sandbox :=
  default cluster_world
    (after (Ext := demo)
       (prologue (Ext := demo) install_args "demo"
          (demo_doc ["A"; "B"; "C"] true))
       (gate_world (Ext := demo) install_args cluster_world)).

Definition second_stage_world : Sandbox :=
  default cluster_world
    (after (Ext := demo)
       (prologue (Ext := demo) install_args "demo"
          (demo_doc ["A"; "B"; "C"] true))
       (gate_world (Ext := demo) install_args
          (st_world first_install_run.2))).

(** Install mode with plays A, B and C, of which B fails. *)
Definition b_fails_world : Sandbox :=
  demo_world (demo_doc ["A"; "B"; "C"] true) [demo_play "B"] "".

Definition b_fails_run : Res bool Empty_set * State (Ext := demo) :=
  Eval vm_compute in
    _main (Ext := demo) install_args "demo" (boot b_fails_world).

(** The worlds in which its git stage and its play loop start. *)
Definition b_fails_stage_world : Sandbox :=
  default b_fails_world
    (after (Ext := demo)
       (prologue (Ext := demo) install_args "demo"
          (demo_doc ["A"; "B"; "C"] true))
       (gate_world (Ext := demo) install_args b_fails_world)).

Definition b_fails_loop_world : Sandbox :=
  default b_fails_world
    (after (Ext := demo)
       (before_plays (Ext := demo) install_args
          (demo_doc ["A"; "B"; "C"] true) b_fails_stage_world)
       b_fails_stage_world).

(** A checkout without deployments, and one with two. *)
Definition empty_world : Sandbox := {|
  sb_dirs := []; sb_files := []; sb_docs := ∅;
  sb_failing := []; sb_word := "walrus"; sb_answer := "";
|}.

Definition two_world : Sandbox := {|
  sb_dirs := ["openshift/inventories/standard"];
  sb_files := ["deployments/demo.yaml"; "deployments/test.yaml"];
  sb_docs := {[ "deployments/demo.yaml" := demo_doc ["A"; "B"; "C"] true ]};
  sb_failing := []; sb_word := "walrus"; sb_answer := "";
|}.

Definition display_args : Namespace := {|
  quiet := false; cluster := false; okd := true;
  display_deployments := true;
  skip_rendering := false; skip_terraform := false;
  skip_pre_openshift := false; skip_openshift := false;
  skip_post_openshift := false;
  auto_acknowledge := true; deployment := None;
|}.

Definition unnamed_args : Namespace := {|
  quiet := false; cluster := false; okd := true;
  display_deployments := false;
  skip_rendering := false; skip_terraform := false;
  skip_pre_openshift := false; skip_openshift := false;
  skip_post_openshift := false;
  auto_acknowledge := true; deployment := None;
|}.

Definition other_args : Namespace := {|
  quiet := false; cluster := false; okd := true;
  display_deployments := false;
  skip_rendering := false; skip_terraform := false;
  skip_pre_openshift := false; skip_openshift := false;
  skip_post_openshift := false;
  auto_acknowledge := true; deployment := Some "other";
|}.

Definition empty_process : Res Z () * State (Ext := demo) :=
  Eval vm_compute in __main__ (Ext := demo) install_args (boot empty_world).

Definition display_process : Res Z () * State (Ext := demo) :=
  Eval vm_compute in __main__ (Ext := demo) display_args (boot two_world).


Definition other_process : Res Z () * State (Ext := demo) :=
  Eval vm_compute in __main__ (Ext := demo) other_args (boot cluster_world).

(** The script without a deployment named, where the only deployment is
    the one whose play B fails; and [_main] as the script calls it. *)
Definition b_fails_process : Res Z () * State (Ext := demo) :=
  Eval vm_compute in __main__ (Ext := demo) unnamed_args (boot b_fails_world).

Definition handed_run : Res bool Empty_set * State (Ext := demo) :=
  Eval vm_compute in
    _main (Ext := demo) unnamed_args "demo"
      (handed_over (Ext := demo) b_fails_world "demo").

(** [_main] for a deployment that has no file. *)
Definition other_run : Res bool Empty_set * State (Ext := demo) :=
  Eval vm_compute in
    _main (Ext := demo) install_args "other" (boot cluster_world).

(** A document with nothing but a name, and the demo document without its
    ansible section. *)
Definition bare_doc : yaml := YMap ([("name", YStr "demo")]).

Definition bare_run : Res bool Empty_set * State (Ext := demo) :=
  Eval vm_compute in
    _main (Ext := demo) install_args "demo" (boot (demo_world bare_doc [] "")).

Definition no_version_doc : yaml :=
  YMap ([
    ("name", YStr "demo");
    ("openshift", YMap ([
        ("inventory_dir", YStr "standard");
        ("ansible_tag", YStr "openshift-ansible-3.11.16-1");
        ("play", YList [YStr "A"])]));
    ("terraform", YMap ([("dir", YStr "scaleway")]));
    ("cluster", YMap ([
        ("master", YMap ([("generate_cert", YBool false)]));
        ("public_hostname", YStr "okd.example.org")]))]).

Definition no_version_run : Res bool Empty_set * State (Ext := demo) :=
  Eval vm_compute in
    _main (Ext := demo) cluster_args "demo"
      (boot (demo_world no_version_doc [] "")).

(** ** Reasoning about scripts *)

(** Proofs keep command lines as they are written in the script. *)
#[local] Arguments String.append : simpl never.

(** [wp m Q s]: running [m] from [s] ends in a result and a state that
    satisfy [Q]. Scripts are total functions, so this is the result of the
    run, not a statement about runs that happen to end. *)
Definition wp `{Ext : Externals} {R A} (m : Py R A)
    (Q : Res R A → State → Prop) (s : State) : Prop :=
  let '(r, s') := m s in Q r s'.
#[global] Arguments wp : simpl never.

(** [keeps P m]: if the probes and the trace satisfy [P] before [m] runs,
    they do after, however [m] ends. *)
Definition keeps `{Ext : Externals}
    (P : list Probe → list (Invocation * bool) → Prop)
    {R A} (m : Py R A) : Prop :=
  ∀ s, P (st_probes s) (st_trace s) →
       wp m (λ _ s', P (st_probes s') (st_trace s')) s.

(** [lasts I m]: when the world has property [I] before [m] it has it
    after, however [m] ends. *)
Definition lasts `{Ext : Externals} (I : World → Prop) {R A} (m : Py R A)
    : Prop :=
  ∀ s, I (st_world s) → wp m (λ _ s', I (st_world s')) s.

Section Logic.
Context `{Ext : Externals}.

Lemma wp_sound {R A} (m : Py R A) Q s0 :
  wp m Q s0 → ∀ r s, m s0 = (r, s) → Q r s.
Proof. unfold wp. intros H r s E. by rewrite E in H. Qed.

Lemma wp_bind {R A B} (m : Py R A) (f : A → Py R B) Q s :
  wp m (λ r s', match r with
                | Val a => wp (f a) Q s'
                | Ret v => Q (Ret v) s'
                | Exn e => Q (Exn e) s'
                end) s →
  wp (m ≫= f) Q s.
Proof.
  unfold wp, mbind, Py_bind. destruct (m s) as [[a|v|e] s']; auto.
Qed.

Lemma wp_ret {R A} (a : A) (Q : Res R A → State → Prop) s :
  Q (Val a) s → wp (mret a) Q s.
Proof. done. Qed.

Lemma wp_return {R A} (v : R) (Q : Res R A → State → Prop) s :
  Q (Ret v) s → wp (return_ v) Q s.
Proof. done. Qed.

Lemma wp_raise {R A} e (Q : Res R A → State → Prop) s :
  Q (Exn e) s → wp (raise e) Q s.
Proof. done. Qed.

Lemma wp_if {R A} (c : bool) (m1 m2 : Py R A) Q s :
  (c = true → wp m1 Q s) → (c = false → wp m2 Q s) →
  wp (if c then m1 else m2) Q s.
Proof. destruct c; auto. Qed.

Lemma wp_if_negb {R A} (c : bool) (m1 m2 : Py R A) Q s :
  (c = false → wp m1 Q s) → (c = true → wp m2 Q s) →
  wp (if negb c then m1 else m2) Q s.
Proof. destruct c; auto. Qed.

Lemma wp_exists {R} path (Q : Res R bool → State → Prop) s :
  (∀ found, os_path_exists path (st_world s) = found →
     Q (Val found) {| st_world := st_world s; st_trace := st_trace s;
                      st_probes := st_probes s ++ [PExists path found];
                      st_out := st_out s |}) →
  wp (exists_ path) Q s.
Proof. intros H. by apply H. Qed.

Lemma wp_isdir {R} path (Q : Res R bool → State → Prop) s :
  (∀ found, os_path_isdir path (st_world s) = found →
     Q (Val found) {| st_world := st_world s; st_trace := st_trace s;
                      st_probes := st_probes s ++ [PIsDir path found];
                      st_out := st_out s |}) →
  wp (isdir path) Q s.
Proof. intros H. by apply H. Qed.

Lemma wp_glob {R} pat (Q : Res R (list string) → State → Prop) s :
  (∀ found, glob_glob pat (st_world s) = found → Q (Val found) s) →
  wp (glob pat) Q s.
Proof. intros H. by apply H. Qed.

Lemma wp_environ {R} k (Q : Res R string → State → Prop) s :
  (os_environ !! k = Some (env_at k) → Q (Val (env_at k)) s) →
  (os_environ !! k = None → Q (Exn (KeyError k)) s) →
  wp (environ k) Q s.
Proof.
  unfold wp, environ, env_at. destruct (os_environ !! k); simpl; auto.
Qed.

Lemma wp_load {R} file (Q : Res R yaml → State → Prop) s :
  (∀ d, yaml_load file (st_world s) = Some d → Q (Val d) s) →
  (yaml_load file (st_world s) = None → Q (Exn LoadError) s) →
  wp (load file) Q s.
Proof. unfold wp, load. destruct (yaml_load _ _); auto. Qed.

Lemma wp_field {R} v path (Q : Res R yaml → State → Prop) s :
  (get_path v path = inr (val_at v path) → Q (Val (val_at v path)) s) →
  (∀ e, get_path v path = inl e → Q (Exn e) s) →
  wp (field v path) Q s.
Proof. unfold wp, field, val_at. destruct (get_path _ _); auto. Qed.

Lemma wp_iter {R} v (Q : Res R (list yaml) → State → Prop) s :
  (py_iter v = inr (items_of v) → Q (Val (items_of v)) s) →
  (∀ e, py_iter v = inl e → Q (Exn e) s) →
  wp (iter v) Q s.
Proof. unfold wp, iter, items_of. destruct (py_iter _); auto. Qed.

Lemma wp_out {R} o (Q : Res R () → State → Prop) s :
  Q (Val ()) {| st_world := st_world s; st_trace := st_trace s;
                st_probes := st_probes s; st_out := st_out s ++ [o] |} →
  wp (out o) Q s.
Proof. done. Qed.

Lemma wp_run {R} cmd cwd quiet (Q : Res R bool → State → Prop) s :
  (∀ text w', io_run cmd cwd quiet (st_world s) = ((true, text), w') →
     Q (Val true) {| st_world := w';
                     st_trace := st_trace s ++ [(Inv cmd cwd quiet, true)];
                     st_probes := st_probes s; st_out := st_out s |}) →
  (∀ text w', io_run cmd cwd quiet (st_world s) = ((false, text), w') →
     Q (Val false) {| st_world := w';
                      st_trace := st_trace s ++ [(Inv cmd cwd quiet, false)];
                      st_probes := st_probes s; st_out := st_out s |}) →
  wp (run cmd cwd quiet) Q s.
Proof.
  unfold wp, run. intros Hok Hfail.
  destruct (io_run _ _ _ _) as [[[] text] w'] eqn:E; eauto.
Qed.

Lemma wp_get_confirmation_word {R} (Q : Res R string → State → Prop) s :
  (∀ word w', io_get_confirmation_word (st_world s) = (word, w') →
     Q (Val word) {| st_world := w'; st_trace := st_trace s;
                     st_probes := st_probes s; st_out := st_out s |}) →
  wp get_confirmation_word Q s.
Proof.
  unfold wp, get_confirmation_word. intros H.
  destruct (io_get_confirmation_word _) eqn:E. by apply H.
Qed.

Lemma wp_input {R} prompt (Q : Res R string → State → Prop) s :
  (∀ line w', input prompt (st_world s) = (line, w') →
     Q (Val line) {| st_world := w'; st_trace := st_trace s;
                     st_probes := st_probes s;
                     st_out := st_out s ++ [OutPrompt prompt] |}) →
  wp (input_ prompt) Q s.
Proof.
  unfold wp, input_. intros H. destruct (input _ _) eqn:E. by apply H.
Qed.

Lemma wp_call {R R'} (f : Py R Empty_set) (Q : Res R' R → State → Prop) s :
  wp f (λ r s', match r with
                | Val a => match a with end
                | Ret v => Q (Val v) s'
                | Exn e => Q (Exn e) s'
                end) s →
  wp (call f) Q s.
Proof. unfold wp, call. by destruct (f s) as [[[]|v|e] s']. Qed.

(** A loop that runs one command per item and returns [False] at the
    first that fails: either every item's command ran and succeeded, or
    the commands up to some item ran, that item's failed, and the
    function has returned. *)
Lemma wp_run_loop {A} (items : list A) (cmd : A → string) cwd q
    (Q : Res bool () → State → Prop) s :
  (∀ w', Q (Val ())
     {| st_world := w';
        st_trace := st_trace s
                    ++ succeeded ((λ x, Inv (cmd x) cwd q) <$> items);
        st_probes := st_probes s; st_out := st_out s |}) →
  (∀ w' n x, items !! n = Some x →
     Q (Ret false)
       {| st_world := w';
          st_trace := st_trace s
                      ++ succeeded ((λ x, Inv (cmd x) cwd q) <$> take n items)
                      ++ [(Inv (cmd x) cwd q, false)];
          st_probes := st_probes s; st_out := st_out s |}) →
  wp (for_each items (λ x, rv ← run (cmd x) cwd q;
                           when_ (negb rv) (return_ false))) Q s.
Proof.
  revert s. induction items as [|x items IH]; intros s Hok Hfail.
  - simpl. apply wp_ret. specialize (Hok (st_world s)).
    rewrite app_nil_r in Hok. by destruct s.
  - simpl. apply wp_bind, wp_bind, wp_run; intros text w' E; simpl.
    + apply wp_ret. apply IH; simpl.
      * intros w''. specialize (Hok w''). by rewrite <-app_assoc.
      * intros w'' n y Hn. specialize (Hfail w'' (S n) y Hn).
        by rewrite <-app_assoc.
    + apply wp_return. apply (Hfail w' 0 x eq_refl).
Qed.

(** A loop that only prints. *)
Lemma wp_print_loop {R A} (items : list A) (msg : A → string)
    (Q : Res R () → State → Prop) s :
  Q (Val ()) {| st_world := st_world s; st_trace := st_trace s;
                st_probes := st_probes s;
                st_out := st_out s ++ (OutPrint ∘ msg <$> items) |} →
  wp (for_each items (λ x, print (msg x))) Q s.
Proof.
  revert s. induction items as [|x items IH]; intros s H.
  - simpl. apply wp_ret. rewrite app_nil_r in H. by destruct s.
  - simpl. apply wp_bind, wp_out. apply IH. simpl.
    by rewrite <-app_assoc.
Qed.

Lemma wp_any {R A} (m : Py R A) (Q : Res R A → State → Prop) s :
  (∀ r s', Q r s') → wp m Q s.
Proof. unfold wp. intros H. by destruct (m s). Qed.

(** *** Trace invariants *)

Lemma wp_keeps {R A} P (m : Py R A) (Q : Res R A → State → Prop) s :
  keeps P m → P (st_probes s) (st_trace s) →
  (∀ r s', P (st_probes s') (st_trace s') → Q r s') →
  wp m Q s.
Proof.
  intros Hm HP HQ. specialize (Hm s HP). unfold wp in *.
  destruct (m s). by apply HQ.
Qed.

Lemma keeps_bind {R A B} P (m : Py R A) (f : A → Py R B) :
  keeps P m → (∀ a, keeps P (f a)) → keeps P (m ≫= f).
Proof.
  intros Hm Hf s HP. specialize (Hm s HP).
  unfold wp, mbind, Py_bind in *. destruct (m s) as [[a|v|e] s']; auto.
  by apply Hf.
Qed.

Lemma keeps_ret {R A} P (a : A) : keeps P (mret a : Py R A).
Proof. by intros s HP. Qed.

Lemma keeps_return {R A} P (v : R) : keeps P (return_ v : Py R A).
Proof. by intros s HP. Qed.

Lemma keeps_raise {R A} P e : keeps P (raise e : Py R A).
Proof. by intros s HP. Qed.

Lemma keeps_if {R A} P (c : bool) (m1 m2 : Py R A) :
  (c = true → keeps P m1) → (c = false → keeps P m2) →
  keeps P (if c then m1 else m2).
Proof. destruct c; auto. Qed.

Lemma keeps_when {R} P (c : bool) (body : Py R ()) :
  (c = true → keeps P body) → keeps P (when_ c body).
Proof. destruct c; simpl; auto using keeps_ret. Qed.

Lemma keeps_for_each {R A} P (xs : list A) (body : A → Py R ()) :
  (∀ x, x ∈ xs → keeps P (body x)) → keeps P (for_each xs body).
Proof.
  induction xs as [|x xs IH]; intros H; simpl; [apply keeps_ret|].
  apply keeps_bind; [apply H; left|intros _; apply IH].
  intros y Hy. apply H. by right.
Qed.

Lemma keeps_exists {R} P path :
  (∀ p t found, P p t → P (p ++ [PExists path found]) t) →
  keeps P (exists_ path : Py R bool).
Proof. intros H s HP. by apply H. Qed.

Lemma keeps_isdir {R} P path :
  (∀ p t found, P p t → P (p ++ [PIsDir path found]) t) →
  keeps P (isdir path : Py R bool).
Proof. intros H s HP. by apply H. Qed.

Lemma keeps_out {R} P o : keeps P (out o : Py R ()).
Proof. by intros s HP. Qed.

Lemma keeps_get_confirmation_word {R} P :
  keeps P (get_confirmation_word : Py R string).
Proof.
  intros s HP. unfold wp, get_confirmation_word.
  by destruct (io_get_confirmation_word _).
Qed.

Lemma keeps_input {R} P prompt : keeps P (input_ prompt : Py R string).
Proof. intros s HP. unfold wp, input_. by destruct (input _ _). Qed.

Lemma keeps_load {R A} P file (f : yaml → Py R A) :
  (∀ d, keeps P (f d)) → keeps P (load file ≫= f).
Proof.
  intros Hf. apply keeps_bind; [|done].
  intros s HP. unfold wp, load. by destruct (yaml_load _ _).
Qed.

Lemma keeps_field {R A} P v path (f : yaml → Py R A) :
  (get_path v path = inr (val_at v path) → keeps P (f (val_at v path))) →
  keeps P (field v path ≫= f).
Proof.
  intros Hf s HP. apply wp_bind, wp_field; [|done].
  intros E. by apply Hf.
Qed.

Lemma keeps_iter {R A} P v (f : list yaml → Py R A) :
  (py_iter v = inr (items_of v) → keeps P (f (items_of v))) →
  keeps P (iter v ≫= f).
Proof.
  intros Hf s HP. apply wp_bind, wp_iter; [|done].
  intros E. by apply Hf.
Qed.

Lemma keeps_environ {R A} P k (f : string → Py R A) :
  (os_environ !! k = Some (env_at k) → keeps P (f (env_at k))) →
  keeps P (environ k ≫= f).
Proof.
  intros Hf s HP. apply wp_bind, wp_environ; [|done].
  intros E. by apply Hf.
Qed.

Lemma keeps_ret_bind {R A B} P (a : A) (f : A → Py R B) :
  keeps P (f a) → keeps P (mret a ≫= f).
Proof. done. Qed.

Lemma keeps_bind_assoc {R A B C} P (m : Py R A) (g : A → Py R B)
    (f : B → Py R C) :
  keeps P (m ≫= λ x, g x ≫= f) → keeps P ((m ≫= g) ≫= f).
Proof.
  intros H s HP. specialize (H s HP). revert H.
  unfold wp, mbind, Py_bind. by destruct (m s) as [[a|v|e] s'].
Qed.

Lemma keeps_if_bind {R A B} P (c : bool) (m1 m2 : Py R A) (f : A → Py R B) :
  (c = true → keeps P (m1 ≫= f)) → (c = false → keeps P (m2 ≫= f)) →
  keeps P ((if c then m1 else m2) ≫= f).
Proof. destruct c; auto. Qed.

Lemma keeps_run {R A} P cmd cwd q (f : bool → Py R A) :
  (∀ p t rv, P p t → P p (t ++ [(Inv cmd cwd q, rv)])) →
  (∀ rv, keeps P (f rv)) →
  keeps P (run cmd cwd q ≫= f).
Proof.
  intros Hstep Hf s HP. apply wp_bind, wp_run; intros text w' E.
  - apply Hf. by apply Hstep.
  - apply Hf. by apply Hstep.
Qed.

(** *** World invariants *)

Lemma wp_lasts {R A} I (m : Py R A) (Q : Res R A → State → Prop) s :
  lasts I m → I (st_world s) → (∀ r s', I (st_world s') → Q r s') →
  wp m Q s.
Proof.
  intros Hm HI HQ. specialize (Hm s HI). unfold wp in *.
  destruct (m s). by apply HQ.
Qed.

Lemma lasts_bind {R A B} I (m : Py R A) (f : A → Py R B) :
  lasts I m → (∀ a, lasts I (f a)) → lasts I (m ≫= f).
Proof.
  intros Hm Hf s HI. specialize (Hm s HI).
  unfold wp, mbind, Py_bind in *. destruct (m s) as [[a|v|e] s']; auto.
  by apply Hf.
Qed.

Lemma lasts_if {R A} I (c : bool) (m1 m2 : Py R A) :
  lasts I m1 → lasts I m2 → lasts I (if c then m1 else m2).
Proof. by destruct c. Qed.

Lemma lasts_for_each {R A} I (xs : list A) (body : A → Py R ()) :
  (∀ x, lasts I (body x)) → lasts I (for_each xs body).
Proof.
  intros H. induction xs as [|x xs IH]; simpl; [by intros s|].
  by apply lasts_bind.
Qed.

(** A statement that leaves the world as it is. *)
Lemma lasts_same {R A} I (m : Py R A) :
  (∀ s, st_world (m s).2 = st_world s) → lasts I m.
Proof.
  intros H s HI. unfold wp. specialize (H s).
  destruct (m s) as [r s']. simpl in H. by rewrite H.
Qed.

Lemma lasts_field {R} I v path : lasts I (field v path : Py R yaml).
Proof.
  apply lasts_same. intros s. unfold field. by destruct (get_path v path).
Qed.

Lemma lasts_iter {R} I v : lasts I (iter v : Py R (list yaml)).
Proof.
  apply lasts_same. intros s. unfold iter. by destruct (py_iter v).
Qed.

Lemma lasts_environ {R} I k : lasts I (environ k : Py R string).
Proof.
  apply lasts_same. intros s. unfold environ. by destruct (os_environ !! k).
Qed.

Lemma lasts_load {R} I file : lasts I (load file : Py R yaml).
Proof.
  apply lasts_same. intros s. unfold load.
  by destruct (yaml_load file (st_world s)).
Qed.

Lemma lasts_run {R} I cmd cwd q :
  stable I → lasts I (run cmd cwd q : Py R bool).
Proof.
  intros (H & _ & _) s HI. unfold wp, run.
  specialize (H cmd cwd q _ HI).
  by destruct (io_run _ _ _ _) as [[rv text] w'].
Qed.

Lemma lasts_get_confirmation_word {R} I :
  stable I → lasts I (get_confirmation_word : Py R string).
Proof.
  intros (_ & H & _) s HI. unfold wp, get_confirmation_word.
  specialize (H _ HI). by destruct (io_get_confirmation_word _).
Qed.

Lemma lasts_input {R} I prompt :
  stable I → lasts I (input_ prompt : Py R string).
Proof.
  intros (_ & _ & H) s HI. unfold wp, input_.
  specialize (H prompt _ HI). by destruct (input _ _).
Qed.

End Logic.

(** Symbolic execution: one statement at a time, by cases on what the
    world answers. *)
Ltac wp_simpl :=
  lazy beta iota zeta delta
    [st_world st_trace st_probes st_out negb andb
     quiet cluster okd display_deployments skip_rendering skip_terraform
     skip_pre_openshift skip_openshift skip_post_openshift auto_acknowledge
     deployment].

(** Bring the logs of the current state back to list form. *)
Ltac wp_norm :=
  wp_simpl;
  lazymatch goal with
  | |- wp ?m ?Q ?s =>
      let s' := eval cbn [app] in s in
      change (wp m Q s')
  | |- _ => idtac
  end.

(** An observation [E : l = r] of something a hypothesis already fixes. *)
Ltac learn E :=
  try match type of E with
      | ?l = _ =>
          match goal with
          | H : l = _ |- _ =>
              tryif constr_eq H E then fail
              else (rewrite H in E; first [discriminate E | simplify_eq])
          end
      end.

Ltac intro_learn :=
  lazymatch goal with
  | |- ∀ _, _ = _ → _ => let E := fresh "E" in intros ? E; learn E
  | |- _ = _ → _ => let E := fresh "E" in intros E; learn E
  end.

Ltac wp_fork rule := apply rule; wp_simpl; intro_learn.

Ltac wp_cond c rule :=
  first [ match goal with H : c = _ |- _ => rewrite H end
        | is_var c; destruct c
        | apply (rule _ _ _ c); intro_learn ].

Ltac wp_step :=
  lazymatch goal with
  | |- wp (mbind _ _) _ _ => apply wp_bind
  | |- wp (mret _) _ _ => apply wp_ret; wp_simpl
  | |- wp (return_ _) _ _ => apply wp_return; wp_simpl
  | |- wp (sys_exit _) _ _ => apply wp_return; wp_simpl
  | |- wp (raise _) _ _ => apply wp_raise; wp_simpl
  | |- wp (when_ _ _) _ _ => unfold when_ at 1
  | |- wp (if (if ?c then false else true) then _ else _) _ _ =>
      wp_cond c @wp_if_negb; wp_simpl
  | |- wp (if ?c then _ else _) _ _ => wp_cond c @wp_if; wp_simpl
  | |- wp (exists_ _) _ _ => wp_fork @wp_exists; wp_norm
  | |- wp (isdir _) _ _ => wp_fork @wp_isdir; wp_norm
  | |- wp (glob _) _ _ => wp_fork @wp_glob; wp_simpl
  | |- wp (load _) _ _ => wp_fork @wp_load; wp_simpl
  | |- wp (field _ _) _ _ => wp_fork @wp_field; wp_simpl
  | |- wp (iter _) _ _ => wp_fork @wp_iter; wp_simpl
  | |- wp (environ _) _ _ => wp_fork @wp_environ; wp_simpl
  | |- wp (print _) _ _ => apply wp_out; wp_norm
  | |- wp (error _) _ _ => apply wp_out; wp_norm
  | |- wp (banner _) _ _ => apply wp_out; wp_norm
  | |- wp (run _ _ _) _ _ => apply wp_run; wp_simpl; intros ? ? ?; wp_norm
  | |- wp get_confirmation_word _ _ =>
      apply wp_get_confirmation_word; wp_simpl; intros ? ? ?; wp_simpl
  | |- wp (input_ _) _ _ => apply wp_input; wp_simpl; intros ? ? ?; wp_norm
  | |- wp (call _) _ _ => apply wp_call
  | |- wp (for_each _ (λ x, print _)) _ _ => apply wp_print_loop; wp_norm
  | |- wp (for_each _ _) _ _ =>
      apply wp_run_loop; [intros ? | intros ? ? ? ?]; wp_norm
  end.

Ltac wp_run_all := repeat wp_step.

(** Start from a statement [∀ res s, m s0 = (res, s) → Q res s]. *)
Ltac wp_start :=
  lazymatch goal with
  | |- ∀ r s, ?m ?s0 = (r, s) → @?Q r s => refine (wp_sound m Q s0 _)
  end.

(** Trace invariants: one rule per statement; what is left is to show
    that each command the script runs keeps the invariant. *)
Ltac keeps_step :=
  lazymatch goal with
  | |- keeps _ (mbind _ (field _ _)) => apply keeps_field; intros ?
  | |- keeps _ (mbind _ (iter _)) => apply keeps_iter; intros ?
  | |- keeps _ (mbind _ (environ _)) => apply keeps_environ; intros ?
  | |- keeps _ (mbind _ (load _)) => apply keeps_load; intros ?
  | |- keeps _ (mbind _ (run _ _ _)) => apply keeps_run; [|intros ?]
  | |- keeps _ (mbind _ (mret _)) => apply keeps_ret_bind
  | |- keeps _ (mbind _ (mbind _ _)) => apply keeps_bind_assoc
  | |- keeps _ (mbind _ (if _ then _ else _)) => apply keeps_if_bind; intros ?
  | |- keeps _ (mbind _ _) => apply keeps_bind; [|intros ?]
  | |- keeps _ (mret _) => apply keeps_ret
  | |- keeps _ (return_ _) => apply keeps_return
  | |- keeps _ (raise _) => apply keeps_raise
  | |- keeps _ (when_ _ _) => apply keeps_when; intros ?
  | |- keeps _ (if _ then _ else _) => apply keeps_if; intros ?
  | |- keeps _ (for_each _ _) => apply keeps_for_each; intros ? ?
  | |- keeps _ (exists_ _) =>
      apply keeps_exists; try exact (λ _ _ _ H, H)
  | |- keeps _ (isdir _) =>
      apply keeps_isdir; try exact (λ _ _ _ H, H)
  | |- keeps _ (print _) => apply keeps_out
  | |- keeps _ (error _) => apply keeps_out
  | |- keeps _ (banner _) => apply keeps_out
  | |- keeps _ get_confirmation_word => apply keeps_get_confirmation_word
  | |- keeps _ (input_ _) => apply keeps_input
  end.

(** World invariants: one rule per statement. *)
Ltac lasts_step :=
  lazymatch goal with
  | |- lasts _ (mbind _ _) => apply lasts_bind; [|intros ?]
  | |- lasts _ (when_ _ _) => apply lasts_if
  | |- lasts _ (if _ then _ else _) => apply lasts_if
  | |- lasts _ (for_each _ _) => apply lasts_for_each; intros ?
  | |- lasts _ (run _ _ _) => apply lasts_run; assumption
  | |- lasts _ get_confirmation_word =>
      apply lasts_get_confirmation_word; assumption
  | |- lasts _ (input_ _) => apply lasts_input; assumption
  | |- lasts _ (field _ _) => apply lasts_field
  | |- lasts _ (iter _) => apply lasts_iter
  | |- lasts _ (environ _) => apply lasts_environ
  | |- lasts _ (load _) => apply lasts_load
  | |- lasts _ _ => apply lasts_same; intros ?; reflexivity
  end.

(** Symbolic execution in a world whose answers hypotheses fix: what the
    world is seen to answer to a command, to the request for the
    confirmation word or at the prompt is set against the hypothesis
    about that same call. *)
Ltac sync_run :=
  lazymatch goal with
  | E : io_run ?c ?d ?q ?w = ?r2 |- _ =>
      try match goal with
          | H : io_run ?c' d q w = ?r1 |- _ =>
              tryif constr_eq H E then fail
              else (unify c c';
                    let X := fresh in
                    pose proof (eq_trans (eq_sym H) E : r1 = r2) as X;
                    first [discriminate X
                          | injection X as ? ?; subst; clear E])
          end
  end.

Ltac sync_word :=
  lazymatch goal with
  | E : io_get_confirmation_word ?w = _ |- _ =>
      try match goal with
          | H : io_get_confirmation_word w = _ |- _ =>
              tryif constr_eq H E then fail
              else (rewrite H in E; simplify_eq)
          end
  end.

Ltac sync_input :=
  lazymatch goal with
  | E : input ?p ?w = ?r2 |- _ =>
      try match goal with
          | H : input ?p' w = ?r1 |- _ =>
              tryif constr_eq H E then fail
              else (unify p p';
                    let X := fresh in
                    pose proof (eq_trans (eq_sym H) E : r1 = r2) as X;
                    injection X as ? ?; subst; clear E)
          end
  end.

Ltac wp_step_sync :=
  lazymatch goal with
  | |- wp (run _ _ _) _ _ => wp_step; sync_run
  | |- wp get_confirmation_word _ _ => wp_step; sync_word
  | |- wp (input_ _) _ _ => wp_step; sync_input
  | |- _ => wp_step
  end.

(** Name what the world answers to the commands of [H : after _ _ = _]. *)
Ltac answers H :=
  lazy beta iota zeta delta
    [after result_of world_after inv_cmd inv_cwd inv_quiet app fst snd
     str_at] in H;
  repeat (lazymatch type of H with
          | context [io_run ?c ?d ?q ?w] =>
              let E := fresh "E" in
              destruct (io_run c d q w) as [[[] ?] ?] eqn:E
          end;
          cbn [fst snd] in H; try discriminate H).

(** The hypotheses about the world that a run past the confirmation
    starts from: the answers at the prompt, when there is one, and the
    answers to the commands of [Hafter]. [more] splits the cases that
    decide what those commands are. *)
Ltac open_gate ack Hc Hafter w more :=
  destruct ack; cbn [orb] in Hc;
  [|let word := fresh "word" in
    let w1 := fresh "w1" in
    let Ew := fresh "Ew" in
    destruct (io_get_confirmation_word w) as [word w1] eqn:Ew;
    let ans := fresh "ans" in
    let w2 := fresh "w2" in
    let Ei := fresh "Ei" in
    destruct (input _ w1) as [ans w2] eqn:Ei; cbn [snd] in Hafter];
  (more; answers Hafter).

(** ** Facts about traces and command lines *)

Section Facts.
Context `{Ext : Externals}.

Lemma commands_succeeded cmds : commands (succeeded cmds) = cmds.
Proof.
  unfold commands, succeeded. induction cmds as [|i cmds IH]; [done|].
  rewrite !fmap_cons. simpl. by rewrite IH.
Qed.

Lemma succeeded_app c1 c2 :
  succeeded (c1 ++ c2) = succeeded c1 ++ succeeded c2.
Proof. apply fmap_app. Qed.

Lemma succeeded_cons i c : succeeded (i :: c) = (i, true) :: succeeded c.
Proof. done. Qed.

Lemma length_append s1 s2 :
  String.length (s1 +:+ s2) = String.length s1 + String.length s2.
Proof. induction s1 as [|c s1 IH]; [done|]. simpl. by rewrite <-IH. Qed.

Lemma drop_chars_app pre s : drop_chars (String.length pre) (pre +:+ s) = s.
Proof. induction pre as [|c pre IH]; [by destruct s|]. apply IH. Qed.

Lemma ends_with_app pre suffix : ends_with suffix (pre +:+ suffix) = true.
Proof.
  unfold ends_with. rewrite length_append.
  replace (String.length pre + String.length suffix - String.length suffix)
    with (String.length pre) by lia.
  rewrite drop_chars_app. apply String.eqb_refl.
Qed.

Lemma names_state_file_intro pre file :
  names_state_file (pre +:+ " -state=" +:+ file) file = true.
Proof. apply ends_with_app. Qed.

Lemma state_file_inj n1 n2 : state_file n1 = state_file n2 → n1 = n2.
Proof. unfold state_file. intros H. by simplify_eq. Qed.

(** A [KeyError] from a document names one of the keys of the path. *)
Lemma get_path_KeyError doc path k :
  get_path doc path = inl (KeyError k) → existsb (String.eqb k) path = true.
Proof.
  revert doc. induction path as [|k' path IH]; intros doc; [done|].
  simpl. destruct doc as [| | | | |m]; simpl; try done.
  destruct (dict_get m k') as [x|] eqn:E.
  - intros H. rewrite (IH x H). apply orb_true_r.
  - intros [= ->]. by rewrite String.eqb_refl.
Qed.

Lemma py_iter_error v e : py_iter v = inl e → e = TypeError.
Proof. destruct v; simpl; congruence. Qed.

Lemma append_assoc s1 s2 s3 : (s1 +:+ s2) +:+ s3 = s1 +:+ (s2 +:+ s3).
Proof.
  induction s1 as [|c s1 IH]; [done|]. exact (f_equal (String c) IH).
Qed.

Lemma append_nil_r s : s +:+ "" = s.
Proof.
  induction s as [|c s IH]; [done|]. exact (f_equal (String c) IH).
Qed.

(** [basename_from] goes through a path from left to right. *)
Lemma basename_from_app acc s1 s2 :
  basename_from acc (s1 +:+ s2) = basename_from (basename_from acc s1) s2.
Proof.
  revert acc. induction s1 as [|c s1 IH]; intros acc; [done|].
  change (String c s1 +:+ s2) with (String c (s1 +:+ s2)).
  cbn [basename_from]. destruct (Ascii.eqb c _); apply IH.
Qed.

Lemma basename_from_no_slash acc s :
  no_slash s = true → basename_from acc s = acc +:+ s.
Proof.
  revert acc. induction s as [|c s IH]; intros acc H.
  - by rewrite append_nil_r.
  - cbn [no_slash basename_from] in H |- *.
    destruct (Ascii.eqb c _); [done|].
    rewrite IH by done. by rewrite append_assoc.
Qed.

Lemma no_slash_app s1 s2 :
  no_slash (s1 +:+ s2) = no_slash s1 && no_slash s2.
Proof.
  induction s1 as [|c s1 IH]; [done|].
  change (String c s1 +:+ s2) with (String c (s1 +:+ s2)).
  cbn [no_slash]. rewrite IH. by rewrite andb_assoc.
Qed.

Lemma substring_app_l s1 s2 :
  String.substring 0 (String.length s1) (s1 +:+ s2) = s1.
Proof.
  induction s1 as [|c s1 IH]; [by destruct s2|].
  change (String c s1 +:+ s2) with (String c (s1 +:+ s2)).
  cbn [String.length String.substring]. by rewrite IH.
Qed.

(** The plan, stage by stage. *)
Lemma planned_eq q cl ok dd sr st sp so spo ack dep name doc mc :
  planned {| quiet := q; cluster := cl; okd := ok; display_deployments := dd;
             skip_rendering := sr; skip_terraform := st;
             skip_pre_openshift := sp; skip_openshift := so;
             skip_post_openshift := spo; auto_acknowledge := ack;
             deployment := dep |} name doc mc =
  (if sr then [] else [Inv ("./render.py " +:+ name) "." q])
  ++ [pip_upgrade q; pip_ansible (str_at doc ["ansible"; "version"]) q]
  ++ (if cl then
        (if st then [] else
           [Inv "terraform init"
                ("terraform/" +:+ str_at doc ["terraform"; "dir"]) q;
            terraform_apply name (str_at doc ["terraform"; "dir"]) q])
        ++ (if sp then [] else [bastion_cmd doc q])
        ++ (if st then [] else
              [terraform_output name (str_at doc ["terraform"; "dir"]) q])
      else
        (if mc then [clone_cmd q] else [])
        ++ [checkout_cmd (str_at doc ["openshift"; "ansible_tag"]) q]
        ++ (if sp then [] else [pre_os_cmd doc q])
        ++ (if so then [] else
              play_cmd (str_at doc ["openshift"; "inventory_dir"]) q
                <$> plays_of doc)
        ++ (if spo then [] else
              [Inv "ansible-playbook site.yaml" "ansible/post-os" q])).
Proof.
  destruct sr, cl, st, sp, so, spo, mc; cbn; rewrite ?app_nil_r; reflexivity.
Qed.

Lemma succeeded_planned q cl ok dd sr st sp so spo ack dep name doc mc :
  succeeded (planned
    {| quiet := q; cluster := cl; okd := ok; display_deployments := dd;
       skip_rendering := sr; skip_terraform := st;
       skip_pre_openshift := sp; skip_openshift := so;
       skip_post_openshift := spo; auto_acknowledge := ack;
       deployment := dep |} name doc mc) =
  (if sr then [] else [(Inv ("./render.py " +:+ name) "." q, true)])
  ++ [(pip_upgrade q, true);
      (pip_ansible (str_at doc ["ansible"; "version"]) q, true)]
  ++ (if cl then
        (if st then [] else
           [(Inv "terraform init"
                 ("terraform/" +:+ str_at doc ["terraform"; "dir"]) q, true);
            (terraform_apply name (str_at doc ["terraform"; "dir"]) q, true)])
        ++ (if sp then [] else [(bastion_cmd doc q, true)])
        ++ (if st then [] else
              [(terraform_output name (str_at doc ["terraform"; "dir"]) q,
                true)])
      else
        (if mc then [(clone_cmd q, true)] else [])
        ++ [(checkout_cmd (str_at doc ["openshift"; "ansible_tag"]) q, true)]
        ++ (if sp then [] else [(pre_os_cmd doc q, true)])
        ++ (let plays :=
              succeeded (play_cmd (str_at doc ["openshift"; "inventory_dir"]) q
                           <$> plays_of doc) in
            let post :=
              (Inv "ansible-playbook site.yaml" "ansible/post-os" q, true) in
            match so, spo with
            | true, true => []
            | true, false => [post]
            | false, true => plays
            | false, false => plays ++ [post]
            end)).
Proof.
  rewrite planned_eq.
  destruct sr, cl, st, sp, so, spo, mc; cbn [app];
    repeat first [rewrite succeeded_cons | rewrite succeeded_app];
    rewrite ?app_nil_r; reflexivity.
Qed.

Lemma play_part_skip x t :
  is_play x.1 = false → play_part (x :: t) = play_part t.
Proof. unfold play_part. simpl. by intros ->. Qed.

Lemma play_part_app t1 t2 :
  play_part (t1 ++ t2) = play_part t1 ++ play_part t2.
Proof. apply List.filter_app. Qed.

Lemma play_part_succeeded {A} (g : A → Invocation) l :
  (∀ x, is_play (g x) = true) →
  play_part (succeeded (g <$> l)) = succeeded (g <$> l).
Proof.
  intros H. unfold play_part. induction l as [|x l IH]; [done|].
  rewrite fmap_cons, succeeded_cons. simpl. by rewrite H, IH.
Qed.

Lemma clones_app t1 t2 : clones (t1 ++ t2) = clones t1 + clones t2.
Proof. unfold clones. by rewrite List.filter_app, length_app. Qed.

Lemma clones_none t : existsb is_clone t = false → clones t = 0.
Proof.
  unfold clones. induction t as [|x t IH]; [done|]. simpl.
  destruct (is_clone x); [done|]. apply IH.
Qed.

Lemma git_behind_refl t0 p : git_behind t0 p t0.
Proof. exists []. by rewrite app_nil_r. Qed.

(** A command that is not a git command leaves the git stage behind. *)
Lemma git_behind_run t0 p t x :
  is_git x = false → git_behind t0 p t → git_behind t0 p (t ++ [x]).
Proof.
  intros Hx (rest & -> & Hr). exists (rest ++ [x]).
  rewrite app_assoc, existsb_app, Hr. simpl. by rewrite Hx.
Qed.

Lemma existsb_is_git rest :
  existsb is_git rest = false →
  existsb is_clone rest = false ∧ existsb is_checkout rest = false.
Proof.
  induction rest as [|x rest IH]; [done|]. unfold is_git in *. simpl.
  destruct (is_clone x), (is_checkout x); simpl; try done.
Qed.

(** What is stable goes through the confirmation, and through commands. *)
Lemma stable_gate_world I cli_args w :
  stable I → I w → I (gate_world cli_args w).
Proof.
  intros (_ & Hw & Hi) HI. unfold gate_world.
  destruct (auto_acknowledge cli_args); [done|].
  specialize (Hw w HI). destruct (io_get_confirmation_word w) as [word w1].
  apply Hi, Hw.
Qed.

Lemma stable_after I cmds w w' :
  stable I → I w → after cmds w = Some w' → I w'.
Proof.
  intros HS. revert w. induction cmds as [|i cmds IH]; intros w HI; simpl.
  - by intros [= <-].
  - destruct (result_of i w); [|done]. apply IH.
    destruct HS as (H & _ & _). apply H, HI.
Qed.

End Facts.

(** ** The inventory check *)

Section Inventory.
Context `{Ext : Externals}.

(** C7. The inventory directory is checked before any command: a run that
    invoked a command found [openshift/inventories/<inventory_dir>] in the
    world it started in; and when the directory is not there the run
    returns [False], says which inventory directory it expected, and has
    invoked no command. *)
Theorem inventory_checked_before_any_command
    cli_args name w doc inventory_dir res s :
  yaml_load ("deployments/" +:+ name +:+ ".yaml") w = Some doc →
  get_path doc ["openshift"; "inventory_dir"] = inr inventory_dir →
  _main cli_args name (initial w) = (res, s) →
  (st_trace s ≠ [] →
     os_path_isdir ("openshift/inventories/" +:+ py_str inventory_dir) w
     = true)
  ∧ (os_path_exists ("deployments/" +:+ name +:+ ".yaml") w = true →
     os_path_isdir ("openshift/inventories/" +:+ py_str inventory_dir) w
     = false →
     res = Ret false ∧ st_trace s = [] ∧
     st_probes s =
       [PExists ("deployments/" +:+ name +:+ ".yaml") true;
        PIsDir ("openshift/inventories/" +:+ py_str inventory_dir) false] ∧
     st_out s =
       [OutError ("Missing " +:+ dq +:+ "openshift/inventories" +:+ dq
                  +:+ " directory");
        OutPrint ("Expected to find the inventory directory " +:+ dq
                  +:+ py_str inventory_dir +:+ dq
                  +:+ " but it was not there.");
        OutPrint ("Every deployment must have an " +:+ dq +:+ "inventories"
                  +:+ dq +:+ " directory")]).
Proof.
  intros Hload Hinv. revert res s. wp_start.
  unfold _main, initial. wp_simpl.
  repeat lazymatch goal with
         | |- wp (field _ ["name"] ≫= _) _ _ => fail
         | |- _ => wp_step
         end.
  - apply wp_any. intros. split; [done | congruence].
  - split; [done | by intros].
  - split; [done | congruence].
Qed.

End Inventory.

Lemma inventory_checked_before_any_command_witness :
  no_inventory_run.1 = Ret false ∧ st_trace no_inventory_run.2 = [] ∧
  OutPrint ("Expected to find the inventory directory " +:+ dq +:+ "standard"
            +:+ dq +:+ " but it was not there.")
    ∈ st_out no_inventory_run.2.
Proof.
  destruct (inventory_checked_before_any_command (Ext := demo)
              install_args "demo" no_inventory_world
              (demo_doc ["A"; "B"; "C"] true) (YStr "standard")
              no_inventory_run.1 no_inventory_run.2
              eq_refl eq_refl eq_refl) as [_ H].
  destruct (H eq_refl eq_refl) as (Hres & Htrace & _ & Hout).
  split; [exact Hres|]. split; [exact Htrace|].
  rewrite Hout. right. left.
Defined.

(** ** The state file of a deployment *)

Section StateFile.
Context `{Ext : Externals}.

(** C8, as the script has it. Every [terraform apply] and
    [terraform output] command that a run for deployment [name] invokes
    is the command line ending in [-state=.terraform.<name>]; and that
    file name determines the deployment's name, so two deployments with
    different names never name the same state file. *)
Theorem state_file_keyed_by_deployment_name cli_args name w res s :
  _main cli_args name (initial w) = (res, s) →
  Forall (uses_state_file name) (st_trace s)
  ∧ (∀ other, state_file other = state_file name → other = name).
Proof.
  revert res s. wp_start.
  apply (wp_keeps (λ _, Forall (uses_state_file name))); [|by constructor|].
  2:{ intros r s' H. split; [done|intros other; apply state_file_inj]. }
  unfold _main. lazy zeta.
  repeat keeps_step.
  all: intros p t ? Ht; apply Forall_app; split; [done|];
    apply Forall_singleton; unfold uses_state_file;
    cbn [fst inv_cmd is_terraform_apply is_terraform_output].
  all: try (split; [|split];
            let H := fresh in intros H; vm_compute in H; discriminate H).
  - split; [|split];
      [done|intros Hp; vm_compute in Hp; discriminate Hp|intros _].
    apply (names_state_file_intro "terraform apply -auto-approve").
  - split; [|split];
      [intros Hp; vm_compute in Hp; discriminate Hp|done|intros _].
    apply (names_state_file_intro "terraform output").
Qed.

End StateFile.

Lemma state_file_keyed_by_deployment_name_witness :
  Forall (uses_state_file "demo") (st_trace cluster_run.2)
  ∧ (Inv "terraform apply -auto-approve -state=.terraform.demo"
         "terraform/scaleway" false, true) ∈ st_trace cluster_run.2.
Proof.
  split.
  - exact (proj1 (state_file_keyed_by_deployment_name
                    (Ext := demo) cluster_args "demo" cluster_world
                    cluster_run.1 cluster_run.2 eq_refl)).
  - vm_compute. do 4 right. left.
Defined.

(** C8 as the specification words it, with [.state.<name>] for the file:
    the apply command of the demo deployment's run does not name that
    file. *)
Lemma state_file_keyed_by_deployment_name_counterexample :
  (Inv "terraform apply -auto-approve -state=.terraform.demo"
       "terraform/scaleway" false, true) ∈ st_trace cluster_run.2
  ∧ names_state_file "terraform apply -auto-approve -state=.terraform.demo"
      (spec_state_file "demo") = false.
Proof.
  split; [vm_compute; do 4 right; left | reflexivity].
Qed.

(** ** The confirmation *)

Section Confirmation.
Context `{Ext : Externals}.

(** A run of [_main] that reaches the prompt and is declined returns
    [True] and leaves the trace as it found it. *)
Lemma declined_run_returns_true cli_args name w doc inventory_dir title
    (Q : Res bool Empty_set → State → Prop) s0 :
  st_world s0 = w →
  os_path_exists ("deployments/" +:+ name +:+ ".yaml") w = true →
  yaml_load ("deployments/" +:+ name +:+ ".yaml") w = Some doc →
  get_path doc ["openshift"; "inventory_dir"] = inr inventory_dir →
  os_path_isdir ("openshift/inventories/" +:+ py_str inventory_dir) w
  = true →
  get_path doc ["name"] = inr title →
  confirmed cli_args w = false →
  (∀ s, st_trace s = st_trace s0 → Q (Ret true) s) →
  wp (_main cli_args name) Q s0.
Proof.
  intros <- Hex Hload Hinv Hdir Hname Hconf HQ.
  destruct s0 as [w t p o]. cbn [st_world st_trace] in *.
  destruct cli_args as [q cl ok dd sr st sp so spo ack dep].
  unfold confirmed in Hconf. cbn [auto_acknowledge cluster] in Hconf.
  apply orb_false_iff in Hconf as [-> Hconf].
  unfold _main. wp_simpl.
  do 22 wp_step.
  match goal with H : io_get_confirmation_word _ = _ |- _ =>
    rewrite H in Hconf end.
  do 2 wp_step.
  match goal with H : input _ _ = _ |- _ => rewrite H in Hconf end.
  repeat wp_step. by apply HQ.
Qed.

(** C3. Without auto-acknowledge, when the operator's answer is not the
    confirmation word (an empty answer included), [_main] returns [True]
    having invoked no command, and the script ends with exit status 0,
    again with no command invoked. *)
Theorem declined_confirmation_is_success
    ARGS name w doc inventory_dir title :
  os_path_exists ("deployments/" +:+ name +:+ ".yaml") w = true →
  yaml_load ("deployments/" +:+ name +:+ ".yaml") w = Some doc →
  get_path doc ["openshift"; "inventory_dir"] = inr inventory_dir →
  os_path_isdir ("openshift/inventories/" +:+ py_str inventory_dir) w
  = true →
  get_path doc ["name"] = inr title →
  confirmed ARGS w = false →
  (∀ res s, _main ARGS name (initial w) = (res, s) →
     res = Ret true ∧ st_trace s = [])
  ∧ (cluster ARGS || okd ARGS = true →
     display_deployments ARGS = false →
     glob_glob "deployments/*.yaml" w ≠ [] →
     selected ARGS (glob_glob "deployments/*.yaml" w) = Some name →
     ∀ r s, __main__ ARGS (initial w) = (r, s) →
       exit_status r = 0%Z ∧ st_trace s = []).
Proof.
  intros Hex Hload Hinv Hdir Hname Hconf. split.
  - wp_start. eapply declined_run_returns_true; eauto.
  - intros Hmode Hdd Hglob Hsel. wp_start.
    destruct ARGS as [q cl ok dd sr st sp so spo ack dep].
    cbn [cluster okd display_deployments] in Hmode, Hdd. subst dd.
    unfold selected in Hsel. cbn [deployment] in Hsel.
    unfold __main__, initial.
    assert (Hrest : ∀ s0 : State, st_world s0 = w → st_trace s0 = [] →
      wp (found ← exists_ ("deployments/" +:+ name +:+ ".yaml");
          when_ (negb found) (
            error ("No config file (" +:+ ("deployments/" +:+ name +:+ ".yaml")
                   +:+ ") for an " +:+ dq +:+ name +:+ dq +:+ " deployment");;
            sys_exit 1);;
          success ← call (_main
            {| quiet := q; cluster := cl; okd := ok;
               display_deployments := false; skip_rendering := sr;
               skip_terraform := st; skip_pre_openshift := sp;
               skip_openshift := so; skip_post_openshift := spo;
               auto_acknowledge := ack; deployment := dep |} name);
          when_ (negb success) (error "Failed to start cluster";; sys_exit 1))
         (λ r s, exit_status r = 0%Z ∧ st_trace s = []) s0).
    { intros [w0 t0 p0 o0] Hw Ht. cbn [st_world st_trace] in Hw, Ht. subst.
      wp_simpl.
      repeat lazymatch goal with
             | |- wp (_main _ _) _ _ => fail
             | |- _ => wp_step
             end.
      eapply declined_run_returns_true; eauto.
      intros s Hs. wp_simpl. repeat wp_step. done. }
    clear Hconf.
    assert (Hm : ∀ Q s0, wp (mret () : Py Z ()) Q s0 →
      wp (when_ (negb cl && negb ok)
            (print "Must specify --cluster or --okd";; sys_exit 1)) Q s0).
    { intros Q s0 H. by destruct cl, ok. }
    apply wp_bind, Hm, wp_ret. clear Hm Hmode.
    wp_step. wp_step. subst found.
    destruct (glob_glob "deployments/*.yaml" w) as [|first rest]; [done|].
    clear Hglob.
    apply wp_bind. unfold when_ at 1.
    rewrite bool_decide_eq_false_2 by done. apply wp_ret.
    apply wp_bind. unfold when_ at 1. apply wp_ret.
    apply wp_bind.
    destruct (unnamed dep).
    + destruct rest as [|second rest]; [|done]. simplify_eq.
      apply wp_bind. unfold when_ at 1. cbn [length].
      rewrite bool_decide_eq_false_2 by lia.
      apply wp_ret, wp_ret. by apply Hrest.
    + subst dep. apply wp_ret. by apply Hrest.
Qed.

End Confirmation.

Lemma declined_confirmation_is_success_witness :
  (declined_run.1 = Ret true ∧ st_trace declined_run.2 = [])
  ∧ (exit_status declined_process.1 = 0%Z
     ∧ st_trace declined_process.2 = []).
Proof.
  destruct (declined_confirmation_is_success (Ext := demo)
              prompting_args "demo" cluster_world
              (demo_doc ["A"; "B"; "C"] true) (YStr "standard") (YStr "demo")
              eq_refl eq_refl eq_refl eq_refl eq_refl eq_refl)
    as [Hmain Hprocess].
  split.
  - exact (Hmain declined_run.1 declined_run.2 eq_refl).
  - refine (Hprocess eq_refl eq_refl _ eq_refl
              declined_process.1 declined_process.2 eq_refl).
    vm_compute. discriminate.
Defined.

(** ** The mode flags *)

Section Mode.
Context `{Ext : Externals}.

(** C9, as the script has it. One of the two mode flags is required: with
    neither, the script prints the usage line and exits with status 1
    before it has looked at any deployment or run anything. The flags do
    not exclude each other: when [--cluster] is set, [--okd] changes
    nothing, so an invocation with both runs as cluster mode. *)
Theorem a_mode_is_required_and_cluster_wins ARGS w :
  (cluster ARGS = false → okd ARGS = false →
   ∀ r s, __main__ ARGS (initial w) = (r, s) →
     r = Ret 1%Z ∧ exit_status r = 1%Z ∧ st_trace s = [] ∧ st_probes s = [] ∧
     st_out s = [OutPrint "Must specify --cluster or --okd"])
  ∧ (cluster ARGS = true →
     ∀ b s0, __main__ (with_okd b ARGS) s0 = __main__ ARGS s0).
Proof.
  destruct ARGS as [q cl ok dd sr st sp so spo ack dep].
  cbn [cluster okd]. split.
  - intros -> ->. wp_start. unfold __main__, initial. wp_simpl.
    repeat wp_step. done.
  - intros -> b s0. unfold with_okd. cbn. reflexivity.
Qed.

End Mode.

Lemma a_mode_is_required_and_cluster_wins_witness :
  (no_mode_process.1 = Ret 1%Z ∧ st_trace no_mode_process.2 = [])
  ∧ __main__ (Ext := demo) both_args (boot cluster_world)
    = __main__ (Ext := demo) cluster_args (boot cluster_world).
Proof.
  destruct (a_mode_is_required_and_cluster_wins (Ext := demo)
              no_mode_args cluster_world) as [Hnone _].
  destruct (a_mode_is_required_and_cluster_wins (Ext := demo)
              cluster_args cluster_world) as [_ Hboth].
  split.
  - destruct (Hnone eq_refl eq_refl no_mode_process.1 no_mode_process.2
                eq_refl) as (Hr & _ & Ht & _).
    exact (conj Hr Ht).
  - exact (Hboth eq_refl true (boot cluster_world)).
Defined.

(** C9 as stated fails for an invocation with both flags: the script
    does not stop with a usage error, it runs the cluster pipeline and
    exits with status 0. *)
Lemma a_mode_is_required_and_cluster_wins_counterexample :
  cluster both_args = true ∧ okd both_args = true
  ∧ exit_status both_process.1 = 0%Z
  ∧ commands (st_trace both_process.2) = commands (st_trace cluster_run.2)
  ∧ length (st_trace both_process.2) = 7.
Proof. vm_compute. done. Qed.

(** ** The environment variables of the bastion stage *)

(** [E] is an error of the document, not one of the environment. *)
Ltac not_an_env_error E :=
  first
    [ apply get_path_KeyError in E; vm_compute in E; discriminate E
    | apply py_iter_error in E; discriminate E ].

Section Environment.
Context `{Ext : Externals}.

(** The bastion command is only in the trace of a cluster-mode run that
    does not skip the stage and has read what the command line needs. *)
Lemma bastion_runs_with_its_variables cli_args name w doc res s :
  yaml_load ("deployments/" +:+ name +:+ ".yaml") w = Some doc →
  _main cli_args name (initial w) = (res, s) →
  Forall (bastion_ready cli_args doc) (st_trace s).
Proof.
  intros Hload. revert res s. wp_start.
  destruct cli_args as [q cl ok dd sr st sp so spo ack dep].
  unfold _main, initial. lazy zeta.
  repeat lazymatch goal with
         | |- wp (field _ ["openshift"; "inventory_dir"] ≫= _) _ _ => fail
         | |- _ => wp_step
         end; [|by constructor..].
  apply (wp_keeps (λ _, Forall (bastion_ready
     {| quiet := q; cluster := cl; okd := ok; display_deployments := dd;
        skip_rendering := sr; skip_terraform := st; skip_pre_openshift := sp;
        skip_openshift := so; skip_post_openshift := spo;
        auto_acknowledge := ack; deployment := dep |} d)));
    [|by constructor|done].
  repeat keeps_step.
  all: intros p t ? Ht; apply Forall_app; split; [done|];
    apply Forall_singleton; unfold bastion_ready;
    cbn [fst is_bastion inv_cwd cluster skip_pre_openshift].
  all: try (let H := fresh in intros H; vm_compute in H; discriminate H).
  - intros _. split; [done|]. split; [by destruct sp|].
    split; [unfold keypair_var; eauto|]. unfold email_var. eauto.
  - intros _. split; [done|]. split; [by destruct sp|].
    split; [unfold keypair_var; eauto|]. unfold generate_cert_of. congruence.
Qed.

(** A [KeyError] for one of the two variables comes from the bastion
    stage, before its command. *)
Lemma env_errors_come_from_bastion cli_args name w res s var :
  var = email_var ∨ var = keypair_var →
  _main cli_args name (initial w) = (res, s) →
  res = Exn (KeyError var) →
  os_environ !! var = None
  ∧ cluster cli_args = true ∧ skip_pre_openshift cli_args = false
  ∧ (var = email_var →
     ∃ doc, yaml_load ("deployments/" +:+ name +:+ ".yaml") w = Some doc ∧
            generate_cert_of doc = true)
  ∧ no_bastion (st_trace s) = true.
Proof.
  intros Hvar. revert res s. wp_start.
  destruct cli_args as [q cl ok dd sr st sp so spo ack dep].
  unfold _main, initial. wp_simpl.
  wp_run_all.
  all: try (intros [=]; fail).
  all: try (intros [=]; subst;
            destruct Hvar as [Hvar|Hvar]; rewrite Hvar in *;
            match goal with E : _ = inl (KeyError _) |- _ =>
              not_an_env_error E end).
  all: try discriminate.
  all: match goal with E : Exn _ = Exn _ |- _ => injection E as <- end.
  all: split; [done|]; split; [done|]; split; [done|];
    split; [|vm_compute; reflexivity].
  all: try (intros [=]; fail).
  all: intros _; exists d; split; [assumption|]; unfold generate_cert_of; done.
Qed.

(** A cluster-mode run that gets to the bastion stage stops there when a
    variable it reads is not set. *)
Lemma bastion_needs_its_variables cli_args name w doc res s :
  past_gate cli_args name w doc →
  cluster cli_args = true → skip_pre_openshift cli_args = false →
  present doc ["ansible"; "version"] → present doc ["terraform"; "dir"] →
  present doc ["cluster"; "master"; "generate_cert"] →
  _main cli_args name (initial w) = (res, s) →
  no_failure (st_trace s) = true →
  (generate_cert_of doc = true → os_environ !! email_var = None →
   res = Exn (KeyError email_var))
  ∧ ((generate_cert_of doc = true →
      is_Some (os_environ !! email_var)
      ∧ present doc ["cluster"; "public_hostname"]) →
     os_environ !! keypair_var = None →
     res = Exn (KeyError keypair_var)).
Proof.
  intros (Hfile & Hload & Hinv & Hdir & Hname & Hc) Hcl Hsp Hv Ht Hg.
  revert res s. wp_start.
  destruct cli_args as [q cl ok dd sr st sp so spo ack dep].
  cbn [cluster skip_pre_openshift] in Hcl, Hsp. subst cl sp.
  unfold present, str_at, generate_cert_of, email_var, keypair_var in *.
  unfold confirmed in Hc; cbn [auto_acknowledge cluster] in Hc.
  unfold _main, initial. wp_simpl.
  wp_run_all.
  all: try (let Hnf := fresh "Hnf" in intros Hnf).
  all: try (match goal with
            | Hnf : no_failure _ = true |- _ =>
                cbv [no_failure forallb snd andb] in Hnf; discriminate Hnf
            end).
  all: try (split; intros Hp Hq;
            first [ reflexivity | congruence
                  | destruct (Hp ltac:(assumption)) as [[? ?] ?]; congruence ]).
  simpl in Hc. rewrite H, H0 in Hc. congruence.
Qed.

(** A cluster-mode run whose commands before the bastion playbook succeed
    runs the playbook when the variables the stage reads are set. *)
Lemma bastion_runs_when_ready cli_args name w doc wb res s :
  past_gate cli_args name w doc →
  cluster cli_args = true → skip_pre_openshift cli_args = false →
  present doc ["ansible"; "version"] → present doc ["terraform"; "dir"] →
  present doc ["cluster"; "master"; "generate_cert"] →
  after (before_bastion cli_args name doc) (gate_world cli_args w) = Some wb →
  is_Some (os_environ !! keypair_var) →
  (generate_cert_of doc = true →
   is_Some (os_environ !! email_var)
   ∧ present doc ["cluster"; "public_hostname"]) →
  _main cli_args name (initial w) = (res, s) →
  bastion_runs cli_args name doc res (st_trace s).
Proof.
  intros (Hfile & Hload & Hinv & Hdir & Hname & Hc) Hcl Hsp Hv Ht Hg Hafter
    [kp Hkp] Hcert.
  revert res s. wp_start.
  destruct cli_args as [q cl ok dd sr st sp so spo ack dep].
  cbn [cluster skip_pre_openshift] in Hcl, Hsp. subst cl sp.
  unfold present, str_at, generate_cert_of, email_var, keypair_var in *.
  unfold confirmed in Hc; cbn [auto_acknowledge cluster] in Hc.
  unfold before_bastion, gate_world, prologue, render_cmd, pip_upgrade,
    pip_ansible, terraform_apply, state_file in Hafter.
  cbn [auto_acknowledge cluster skip_rendering skip_terraform quiet]
    in Hafter.
  open_gate ack Hc Hafter w ltac:(destruct sr; destruct st).
  all: clear Hafter.
  all: (destruct (truthy (val_at doc ["cluster"; "master"; "generate_cert"]))
          eqn:Egc;
        [destruct (Hcert eq_refl) as [[em Hem] Hhost]|]; clear Hcert).
  all: unfold _main, initial; wp_simpl.
  all: repeat wp_step_sync.
  all: lazy beta iota zeta delta
    [bastion_runs before_bastion prologue render_cmd pip_upgrade pip_ansible
     terraform_apply state_file bastion_cmd generate_cert_of str_at
     email_var keypair_var quiet skip_rendering skip_terraform];
    rewrite ?Egc; cbn [app];
    eexists _, _; (split; [reflexivity|]);
    first [intros _; done | intros [=]].
Qed.

(** C5, as the script has it. The two variables are read in cluster mode's
    pre-install stage and nowhere else: the keypair variable whenever the
    stage runs, the e-mail variable only when the document sets
    [generate_cert]. The stage's command is only run once they have been
    read; a [KeyError] naming one of them means that variable is not set
    and the stage was reached but its command was not run; a run that
    gets to the stage with a variable it reads not set raises the
    [KeyError] naming it; and a run that gets to the stage with the
    variables it reads set runs the stage's command, so that without
    [generate_cert] the keypair variable is enough. *)
Theorem bastion_stage_reads_its_variables cli_args name w doc wb res s :
  yaml_load ("deployments/" +:+ name +:+ ".yaml") w = Some doc →
  _main cli_args name (initial w) = (res, s) →
  Forall (bastion_ready cli_args doc) (st_trace s)
  ∧ (∀ var, var = email_var ∨ var = keypair_var →
       res = Exn (KeyError var) →
       os_environ !! var = None
       ∧ cluster cli_args = true ∧ skip_pre_openshift cli_args = false
       ∧ (var = email_var → generate_cert_of doc = true)
       ∧ no_bastion (st_trace s) = true)
  ∧ (past_gate cli_args name w doc →
     cluster cli_args = true → skip_pre_openshift cli_args = false →
     present doc ["ansible"; "version"] → present doc ["terraform"; "dir"] →
     present doc ["cluster"; "master"; "generate_cert"] →
     (no_failure (st_trace s) = true →
      (generate_cert_of doc = true → os_environ !! email_var = None →
       res = Exn (KeyError email_var))
      ∧ ((generate_cert_of doc = true →
          is_Some (os_environ !! email_var)
          ∧ present doc ["cluster"; "public_hostname"]) →
         os_environ !! keypair_var = None →
         res = Exn (KeyError keypair_var)))
     ∧ (after (before_bastion cli_args name doc) (gate_world cli_args w)
        = Some wb →
        is_Some (os_environ !! keypair_var) →
        (generate_cert_of doc = true →
         is_Some (os_environ !! email_var)
         ∧ present doc ["cluster"; "public_hostname"]) →
        bastion_runs cli_args name doc res (st_trace s))).
Proof.
  intros Hload Hrun. split; [|split].
  - by eapply bastion_runs_with_its_variables.
  - intros var Hvar Hres.
    destruct (env_errors_come_from_bastion _ _ _ _ _ _ Hvar Hrun Hres)
      as (Hnone & Hcl & Hsp & Hcert & Htrace).
    repeat (split; [done|]). split; [|done].
    intros Hv. destruct (Hcert Hv) as (doc' & Hload' & Hg). congruence.
  - intros Hgate Hcl Hsp Hv Ht Hg. split.
    + intros Hnf. by eapply bastion_needs_its_variables.
    + intros Hafter Hkp Hcert. by eapply bastion_runs_when_ready.
Qed.

End Environment.

Lemma bastion_stage_reads_its_variables_witness :
  (no_email_run.1 = Exn (KeyError email_var)
   ∧ no_bastion (st_trace no_email_run.2) = true)
  ∧ (generate_cert_of (demo_doc ["A"; "B"; "C"] false) = false
     ∧ os_environ (Externals := keypair_only) !! email_var = None
     ∧ bastion_runs (Ext := keypair_only) cluster_args "demo"
         (demo_doc ["A"; "B"; "C"] false)
         keypair_only_run.1 (st_trace keypair_only_run.2)
     ∧ existsb (λ x, is_bastion x.1) (st_trace keypair_only_run.2) = true).
Proof.
  split.
  - destruct (bastion_stage_reads_its_variables (Ext := bare)
                cluster_args "demo" cluster_world
                (demo_doc ["A"; "B"; "C"] true) cluster_world
                no_email_run.1 no_email_run.2 eq_refl eq_refl)
      as (_ & Herr & Hstop).
    assert (Hres : no_email_run.1 = Exn (KeyError email_var)).
    { apply Hstop; try reflexivity.
      repeat split; vm_compute; reflexivity. }
    split; [exact Hres|].
    destruct (Herr email_var (or_introl eq_refl) Hres)
      as (_ & _ & _ & _ & Ht).
    exact Ht.
  - destruct (bastion_stage_reads_its_variables (Ext := keypair_only)
                cluster_args "demo" plain_world
                (demo_doc ["A"; "B"; "C"] false) plain_world
                keypair_only_run.1 keypair_only_run.2 eq_refl eq_refl)
      as (_ & _ & Hstage).
    split; [reflexivity|]. split; [reflexivity|].
    split; [|reflexivity].
    apply Hstage; try reflexivity.
    + repeat split; vm_compute; reflexivity.
    + vm_compute. eauto.
    + intros H. vm_compute in H. discriminate H.
Defined.

(** C5 as stated fails for the keypair variable: with [generate_cert]
    false and the variable not set, the stage does not run; the script
    raises the [KeyError] before the bastion command. *)
Lemma bastion_stage_reads_its_variables_counterexample :
  generate_cert_of (demo_doc ["A"; "B"; "C"] false) = false
  ∧ cluster cluster_args = true ∧ skip_pre_openshift cluster_args = false
  ∧ no_failure (st_trace no_keypair_run.2) = true
  ∧ no_keypair_run.1 = Exn (KeyError keypair_var)
  ∧ no_bastion (st_trace no_keypair_run.2) = true.
Proof. vm_compute. done. Qed.

(** ** The two pip commands *)

Section Pip.
Context `{Ext : Externals}.


End Pip.


(** ** Clone and checkout *)

(** What the world answered, put into a statement about the git stage. *)
Ltac answered :=
  (let c := eval cbv in (inv_cmd (clone_cmd false)) in
   try change ("git clone https://github.com/openshift/openshift-ansible.git"
               +:+ " --no-checkout") with c in *);
  unfold git_entries, result_of, world_after, prologue, render_cmd,
    pip_upgrade, pip_ansible, clone_cmd, checkout_cmd, str_at;
  cbn [quiet skip_rendering inv_cmd inv_cwd inv_quiet];
  repeat (match goal with
          | H : os_path_exists _ _ = _ |- _ => rewrite H
          | H : io_run _ _ _ _ = _ |- _ => rewrite H
          end; cbn [fst snd]).

Section Checkout.
Context `{Ext : Externals}.

(** One install-mode run whose commands before the git stage succeed:
    the script is followed up to the end of the git stage; what comes
    after runs no git command. *)
Lemma git_stage_entries cli_args name w doc wg res s :
  past_gate cli_args name w doc →
  cluster cli_args = false →
  present doc ["ansible"; "version"] →
  present doc ["terraform"; "dir"] →
  present doc ["openshift"; "ansible_tag"] →
  after (prologue cli_args name doc) (gate_world cli_args w) = Some wg →
  _main cli_args name (initial w) = (res, s) →
  ∃ rest,
    st_trace s = succeeded (prologue cli_args name doc)
                 ++ git_entries cli_args doc wg ++ rest
    ∧ existsb is_git rest = false
    ∧ (no_failure (git_entries cli_args doc wg) = false →
       rest = [] ∧ res = Ret false).
Proof.
  intros (Hfile & Hload & Hinv & Hdir & Hname & Hc) Hcl Hv Ht Htag Hafter.
  revert res s. wp_start.
  destruct cli_args as [q cl ok dd sr st sp so spo ack dep].
  cbn [cluster] in Hcl. subst cl.
  unfold present, str_at in *.
  unfold confirmed in Hc; cbn [auto_acknowledge cluster] in Hc.
  unfold gate_world, prologue, render_cmd, pip_upgrade, pip_ansible in Hafter.
  cbn [auto_acknowledge cluster skip_rendering quiet] in Hafter.
  open_gate ack Hc Hafter w ltac:(destruct sr).
  all: injection Hafter as ->.
  all: unfold _main, initial; wp_simpl.
  all: repeat lazymatch goal with
    | |- wp (when_ _ (field _ ["cluster"; "master"; "generate_cert"] ≫= _)
             ≫= _) _ _ => fail
    | |- _ => wp_step_sync
    end.
  all: lazymatch goal with
    | |- wp _ _ (mkState _ ?tr _ _) =>
        apply (wp_keeps (git_behind tr));
        [ repeat keeps_step;
          intros p t ?; apply git_behind_run; lazy; reflexivity
        | apply git_behind_refl
        | intros r [? t p ?] HP; cbn [st_trace st_probes] in HP;
          destruct HP as (rest & -> & Hrest); wp_simpl;
          exists rest; answered;
          split; [reflexivity|]; split; [exact Hrest|];
          intros Hnf; lazy in Hnf; discriminate Hnf ]
    | |- _ =>
        exists []; answered;
        split; [reflexivity|]; split; [reflexivity|]; intros _; done
    end.
Qed.

Lemma git_stage_run cli_args name w doc wg res s :
  past_gate cli_args name w doc →
  cluster cli_args = false →
  present doc ["ansible"; "version"] →
  present doc ["terraform"; "dir"] →
  present doc ["openshift"; "ansible_tag"] →
  after (prologue cli_args name doc) (gate_world cli_args w) = Some wg →
  _main cli_args name (initial w) = (res, s) →
  git_stage cli_args name doc wg res (st_trace s).
Proof.
  intros Hgate Hcl Hv Ht Htag Hafter Hrun.
  pose proof (git_stage_entries _ _ _ _ _ _ _ Hgate Hcl Hv Ht Htag Hafter
                Hrun) as (rest & Htrace & Hrest & Hfatal).
  split; [by exists rest|].
  destruct (existsb_is_git _ Hrest) as [Hrc Hrk].
  rewrite Htrace, !existsb_app, !clones_app, Hrc, Hrk, (clones_none _ Hrc).
  unfold prologue, git_entries.
  destruct (skip_rendering cli_args),
    (os_path_exists "openshift-ansible" wg),
    (result_of (clone_cmd (quiet cli_args)) wg).
  all: split; [lazy; reflexivity|]; split; [lazy; lia|lazy; reflexivity].
Qed.

(** Where nothing takes the clone directory away, a run that found it or
    cloned it leaves it there. *)
Lemma clone_directory_stays cli_args name w doc wg res s :
  clone_stays →
  past_gate cli_args name w doc →
  cluster cli_args = false →
  present doc ["ansible"; "version"] →
  present doc ["terraform"; "dir"] →
  after (prologue cli_args name doc) (gate_world cli_args w) = Some wg →
  os_path_exists "openshift-ansible" wg = true
  ∨ result_of (clone_cmd (quiet cli_args)) wg = true →
  _main cli_args name (initial w) = (res, s) →
  cloned (st_world s).
Proof.
  intros [Hclone Hst] (Hfile & Hload & Hinv & Hdir & Hname & Hc) Hcl Hv Ht
    Hafter Hthere.
  revert res s. wp_start.
  destruct cli_args as [q cl ok dd sr st sp so spo ack dep].
  cbn [cluster] in Hcl. subst cl. cbn [quiet] in Hthere.
  specialize (Hclone q wg).
  unfold present, str_at in *.
  unfold confirmed in Hc; cbn [auto_acknowledge cluster] in Hc.
  unfold gate_world, prologue, render_cmd, pip_upgrade, pip_ansible in Hafter.
  cbn [auto_acknowledge cluster skip_rendering quiet] in Hafter.
  open_gate ack Hc Hafter w ltac:(destruct sr).
  all: injection Hafter as ->.
  all: unfold _main, initial; wp_simpl.
  all: repeat lazymatch goal with
    | |- wp (field _ ["openshift"; "ansible_tag"] ≫= _) _ _ => fail
    | |- _ => wp_step_sync
    end.
  all: unfold result_of, world_after, clone_cmd in Hthere, Hclone;
       cbn [inv_cmd inv_cwd inv_quiet] in Hthere, Hclone.
  all: try change ("git clone https://github.com/openshift/openshift-ansible.git"
                   +:+ " --no-checkout")
         with "git clone https://github.com/openshift/openshift-ansible.git --no-checkout"
         in *.
  all: try match goal with
    | H : io_run
            "git clone https://github.com/openshift/openshift-ansible.git --no-checkout"
            _ _ _ = _ |- _ =>
        rewrite H in Hthere, Hclone; cbn [fst snd] in Hthere, Hclone
    end.
  all: lazymatch goal with
    | |- wp _ _ _ =>
        apply (wp_lasts cloned);
        [ repeat lasts_step
        | first [assumption | by apply Hclone]
        | intros r s' HI; exact HI ]
    | |- _ => destruct Hthere; congruence
    end.
Qed.

(** C4. An install-mode run that is past the confirmation, has the fields
    it reads up to the tag, and whose rendering and pip commands succeed,
    gets to the git stage in some world [wg]. There it clones exactly
    when the clone directory does not exist in [wg], and not twice; it
    runs the tag checkout whether the directory was there or had to be
    cloned (unless the clone failed); and a git command that fails is the
    last command of the run, which returns [False], also when the
    directory was there. Of two runs in a row, the second in the world
    the first left, where a clone leaves its directory and nothing takes
    the directory away: when the first found or cloned the directory, the
    second finds it, does not clone, and runs the tag checkout, so that
    the two runs clone at most once. *)
Theorem clone_once_checkout_always
    cli_args name doc w wg res s w2 wg2 res2 s2 :
  cluster cli_args = false →
  present doc ["ansible"; "version"] →
  present doc ["terraform"; "dir"] →
  present doc ["openshift"; "ansible_tag"] →
  past_gate cli_args name w doc →
  after (prologue cli_args name doc) (gate_world cli_args w) = Some wg →
  _main cli_args name (initial w) = (res, s) →
  git_stage cli_args name doc wg res (st_trace s)
  ∧ (clone_stays →
     os_path_exists "openshift-ansible" wg = true
     ∨ result_of (clone_cmd (quiet cli_args)) wg = true →
     w2 = st_world s →
     past_gate cli_args name w2 doc →
     after (prologue cli_args name doc) (gate_world cli_args w2) = Some wg2 →
     _main cli_args name (initial w2) = (res2, s2) →
     os_path_exists "openshift-ansible" wg2 = true
     ∧ git_stage cli_args name doc wg2 res2 (st_trace s2)
     ∧ existsb is_clone (st_trace s2) = false
     ∧ existsb is_checkout (st_trace s2) = true
     ∧ clones (st_trace s ++ st_trace s2) ≤ 1).
Proof.
  intros Hcl Hv Ht Htag Hgate Hafter Hrun.
  pose proof (git_stage_run _ _ _ _ _ _ _ Hgate Hcl Hv Ht Htag Hafter Hrun)
    as G1.
  split; [done|].
  intros Hstay Hthere -> Hgate2 Hafter2 Hrun2.
  pose proof (clone_directory_stays _ _ _ _ _ _ _ Hstay Hgate Hcl Hv Ht
                Hafter Hthere Hrun) as Hleft.
  assert (Hdir : os_path_exists "openshift-ansible" wg2 = true).
  { destruct Hstay as [_ Hst].
    apply (stable_after cloned _ _ _ Hst
             (stable_gate_world cloned cli_args _ Hst Hleft) Hafter2). }
  pose proof (git_stage_run _ _ _ _ _ _ _ Hgate2 Hcl Hv Ht Htag Hafter2
                Hrun2) as G2.
  split; [done|]. split; [done|].
  destruct G1 as (_ & _ & Hone & _). destruct G2 as (_ & Hc2 & _ & Hk2).
  rewrite Hdir in Hc2, Hk2. simpl in Hc2, Hk2.
  split; [done|]. split; [done|].
  rewrite clones_app, (clones_none _ Hc2). lia.
Qed.

End Checkout.

(** In the sandbox a clone leaves its directory and nothing is removed. *)
Lemma demo_clone_stays : clone_stays (Ext := demo).
Proof.
  assert (Hrun : ∀ cmd w,
            bool_decide ("openshift-ansible" ∈ sb_dirs w) = true →
            bool_decide ("openshift-ansible" ∈ sb_dirs (sandbox_run cmd w).2)
            = true).
  { intros cmd w H. unfold sandbox_run.
    destruct (bool_decide (cmd ∈ sb_failing w)); [done|].
    destruct (String.eqb cmd git_clone); [|done]. simpl.
    first [reflexivity | apply bool_decide_eq_true_2; left]. }
  split.
  - intros q w. unfold result_of, world_after, cloned. simpl.
    unfold sandbox_run.
    destruct (bool_decide (_ ∈ sb_failing w)); [done|]. simpl. intros _.
    first [reflexivity
          | apply orb_true_iff; left; apply bool_decide_eq_true_2; left].
  - unfold stable, cloned. simpl. split; [|done].
    intros cmd _ _ w H. apply orb_true_iff in H as [H|H].
    + by rewrite (Hrun cmd w H).
    + apply orb_true_iff. right. revert H. unfold sandbox_run.
      destruct (bool_decide (cmd ∈ sb_failing w)); [done|].
      by destruct (String.eqb cmd git_clone).
Qed.

Lemma clone_once_checkout_always_witness :
  existsb is_clone (st_trace first_install_run.2) = true
  ∧ existsb is_checkout (st_trace first_install_run.2) = true
  ∧ existsb is_clone (st_trace second_install_run.2) = false
  ∧ existsb is_checkout (st_trace second_install_run.2) = true
  ∧ clones (st_trace first_install_run.2 ++ st_trace second_install_run.2) ≤ 1.
Proof.
  assert (Hgate : ∀ w, w = cluster_world ∨ w = st_world first_install_run.2 →
            past_gate (Ext := demo) install_args "demo" w
              (demo_doc ["A"; "B"; "C"] true)).
  { intros w [-> | ->]; repeat split; vm_compute; reflexivity. }
  destruct (clone_once_checkout_always (Ext := demo) install_args "demo"
              (demo_doc ["A"; "B"; "C"] true)
              cluster_world first_stage_world
              first_install_run.1 first_install_run.2
              (st_world first_install_run.2) second_stage_world
              second_install_run.1 second_install_run.2
              eq_refl eq_refl eq_refl eq_refl (Hgate _ (or_introl eq_refl))
              eq_refl eq_refl)
    as ((_ & Hc1 & _ & Hk1) & Htwice).
  destruct (Htwice demo_clone_stays (or_intror eq_refl) eq_refl
              (Hgate _ (or_intror eq_refl)) eq_refl eq_refl)
    as (_ & _ & Hc2 & Hk2 & Hone).
  split; [exact Hc1|]. split; [exact Hk1|].
  split; [exact Hc2|]. split; [exact Hk2|]. exact Hone.
Defined.

(** ** The play loop *)

Section Plays.
Context `{Ext : Externals}.

(** C1. An install-mode run with the openshift stage not skipped, that is
    past the confirmation, has the fields it reads, a play list that can
    be gone through, and whose commands before the play loop succeed,
    runs one command per play, in list order, right after those
    commands. Either every play's command ran and succeeded, and no play
    command comes after them; or the command of some play failed: then
    the plays before it had run and succeeded and stay as they are, the
    failed command is the last command of the run, so no later play is
    invoked and nothing is undone, and [_main] returns [False]. *)
Theorem plays_run_in_order_until_failure
    cli_args name w doc wg wl res s :
  cluster cli_args = false → skip_openshift cli_args = false →
  past_gate cli_args name w doc →
  present doc ["ansible"; "version"] →
  present doc ["terraform"; "dir"] →
  present doc ["openshift"; "ansible_tag"] →
  (skip_pre_openshift cli_args = false →
   present doc ["cluster"; "master"; "generate_cert"]
   ∧ (generate_cert_of doc = true →
      present doc ["cluster"; "public_hostname"])) →
  present doc ["openshift"; "play"] →
  py_iter (val_at doc ["openshift"; "play"]) = inr (plays_of doc) →
  after (prologue cli_args name doc) (gate_world cli_args w) = Some wg →
  after (before_plays cli_args doc wg) wg = Some wl →
  _main cli_args name (initial w) = (res, s) →
  plays_in_order cli_args name doc wg res (st_trace s).
Proof.
  intros Hcl Hso (Hfile & Hload & Hinv & Hdir & Hname & Hc) Hv Ht Htag Hpre
    Hplay Hiter Hafter Hafter2.
  revert res s. wp_start.
  destruct cli_args as [q cl ok dd sr st sp so spo ack dep].
  cbn [cluster skip_openshift] in Hcl, Hso. subst cl so.
  cbn [skip_pre_openshift] in Hpre.
  unfold present, str_at, plays_of, generate_cert_of in *.
  unfold confirmed in Hc; cbn [auto_acknowledge cluster] in Hc.
  unfold gate_world, prologue, render_cmd, pip_upgrade, pip_ansible in Hafter.
  cbn [auto_acknowledge cluster skip_rendering quiet] in Hafter.
  unfold before_plays, git_commands, clone_cmd, checkout_cmd, pre_os_cmd,
    generate_cert_of, str_at in Hafter2.
  cbn [skip_pre_openshift quiet] in Hafter2.
  open_gate ack Hc Hafter w ltac:(destruct sr).
  all: injection Hafter as ->.
  all: destruct (os_path_exists "openshift-ansible" _) eqn:Eclone.
  all: (destruct sp;
        [|destruct (Hpre eq_refl) as [Hgc Hhost];
          destruct (truthy (val_at doc ["cluster"; "master"; "generate_cert"]))
            eqn:Egc; [specialize (Hhost eq_refl)|]]).
  all: clear Hpre; answers Hafter2.
  all: unfold _main, initial; wp_simpl.
  all: repeat wp_step_sync.
  all: lazy beta iota zeta delta
    [plays_in_order prologue before_plays git_commands render_cmd pip_upgrade
     pip_ansible clone_cmd checkout_cmd pre_os_cmd play_cmd plays_of
     generate_cert_of str_at quiet skip_rendering skip_pre_openshift];
    rewrite ?Eclone, ?Egc; cbn [app].
  all: (split; [lazy; reflexivity|]).
  all: first
    [ match goal with
      | H : _ !! ?n = Some ?p |- _ =>
          right; exists n, p; split; [exact H|]; split; reflexivity
      end
    | left;
      lazymatch goal with
      | |- ∃ rest, ?t = _ ∧ _ =>
          lazymatch t with
          | context [_ ++ [?x]] => exists [x]
          | _ => exists []; rewrite app_nil_r
          end
      end;
      split; [reflexivity|lazy; reflexivity] ].
Qed.

End Plays.

Lemma plays_run_in_order_until_failure_witness :
  (∃ n p,
     plays_of (demo_doc ["A"; "B"; "C"] true) !! n = Some p
     ∧ st_trace b_fails_run.2
       = succeeded (prologue (Ext := demo) install_args "demo"
                      (demo_doc ["A"; "B"; "C"] true)
                    ++ before_plays (Ext := demo) install_args
                         (demo_doc ["A"; "B"; "C"] true) b_fails_stage_world)
         ++ succeeded (play_cmd (Ext := demo) "standard" false
                       <$> take n (plays_of (demo_doc ["A"; "B"; "C"] true)))
         ++ [(play_cmd (Ext := demo) "standard" false p, false)]
     ∧ b_fails_run.1 = Ret false)
  ∧ play_part (st_trace b_fails_run.2)
    = [(Inv (demo_play "A") "openshift" false, true);
       (Inv (demo_play "B") "openshift" false, false)].
Proof.
  assert (Hgate : past_gate (Ext := demo) install_args "demo" b_fails_world
                    (demo_doc ["A"; "B"; "C"] true)).
  { repeat split; vm_compute; reflexivity. }
  destruct (plays_run_in_order_until_failure (Ext := demo) install_args
              "demo" b_fails_world (demo_doc ["A"; "B"; "C"] true)
              b_fails_stage_world b_fails_loop_world
              b_fails_run.1 b_fails_run.2
              eq_refl eq_refl Hgate eq_refl eq_refl eq_refl
              (λ _, conj eq_refl (λ _, eq_refl)) eq_refl eq_refl
              eq_refl eq_refl eq_refl)
    as [_ [(rest & Hall & _)|Hfail]].
  - vm_compute in Hall. discriminate Hall.
  - split; [exact Hfail|reflexivity].
Defined.

(** * More of the script *)

(** ** The names of deployments *)

Section Names.

(** X1. The name the script lists for the file of a deployment is the
    name that stands for that file on the command line: for a name
    without a slash, taking the base name of
    [deployments/<name>.yaml] and dropping its last five characters gives
    the name back. *)
Theorem listed_name_round_trip name :
  no_slash name = true →
  strip_suffix5 (basename ("deployments/" +:+ name +:+ ".yaml")) = name.
Proof.
  intros H. unfold basename.
  rewrite (basename_from_app "" "deployments/").
  replace (basename_from "" "deployments/") with ""
    by (vm_compute; reflexivity).
  rewrite basename_from_no_slash
    by (rewrite no_slash_app, H; reflexivity).
  change ("" +:+ (name +:+ ".yaml")) with (name +:+ ".yaml").
  unfold strip_suffix5. rewrite length_append.
  replace (String.length name + String.length ".yaml" - 5)
    with (String.length name) by (cbn; lia).
  apply substring_app_l.
Qed.

End Names.

Lemma listed_name_round_trip_witness :
  strip_suffix5 (basename "deployments/demo.yaml") = "demo".
Proof. exact (listed_name_round_trip "demo" eq_refl). Defined.

(** ** Before [_main] is called *)

(** A condition of the script that the hypotheses have settled. *)
Ltac settled :=
  subst;
  match goal with
  | E : bool_decide _ = true |- _ =>
      apply bool_decide_eq_true in E;
      first [discriminate E | congruence | simpl in E; lia
            | rewrite E in *; simpl in *; lia]
  | E : bool_decide _ = false |- _ =>
      apply bool_decide_eq_false in E;
      first [by destruct E | congruence | simpl in E; lia]
  end.

(** The two ways [selected] settles on a deployment. *)
Ltac pick_deployment Hsel :=
  unfold selected in Hsel; cbn [deployment] in Hsel;
  lazymatch type of Hsel with
  | (if unnamed ?dep then _ else _) = _ =>
      let Hun := fresh "Hun" in
      destruct (unnamed dep) eqn:Hun;
      [ lazymatch type of Hsel with
        | match ?g with _ => _ end = _ =>
            let Hg := fresh "Hg" in
            destruct g as [|first [|? ?]] eqn:Hg; try discriminate Hsel;
            injection Hsel as <-
        end
      | subst dep ]
  end.

Section Front.
Context `{Ext : Externals}.

(** X2. With a mode chosen and no deployment file in the directory, the
    script prints that the directory is empty and exits with status 1; it
    has looked for no configuration file and run nothing. *)
Theorem empty_deployments_directory ARGS w r s :
  cluster ARGS || okd ARGS = true →
  glob_glob "deployments/*.yaml" w = [] →
  __main__ ARGS (initial w) = (r, s) →
  r = Ret 1%Z ∧ st_trace s = [] ∧ st_probes s = []
  ∧ st_out s = [OutPrint "The deployments directory is empty"].
Proof.
  intros Hmode Hglob. revert r s. wp_start.
  destruct ARGS as [q cl ok dd sr st sp so spo ack dep].
  cbn [cluster okd] in Hmode.
  unfold __main__, initial. wp_simpl.
  destruct cl, ok; try discriminate Hmode; cbn [negb andb].
  all: repeat wp_step; try settled; done.
Qed.

(** X3. With [--display-deployments], a mode and a directory that is not
    empty, the script prints the name of each deployment, in the order of
    the listing, and exits with status 0: no configuration file is looked
    for, [_main] is not called and nothing is run. *)
Theorem display_deployments_lists_and_stops ARGS w r s :
  cluster ARGS || okd ARGS = true →
  glob_glob "deployments/*.yaml" w ≠ [] →
  display_deployments ARGS = true →
  __main__ ARGS (initial w) = (r, s) →
  r = Ret 0%Z ∧ st_trace s = [] ∧ st_probes s = []
  ∧ st_out s = listing (glob_glob "deployments/*.yaml" w).
Proof.
  intros Hmode Hglob Hdd. revert r s. wp_start.
  destruct ARGS as [q cl ok dd sr st sp so spo ack dep].
  cbn [cluster okd display_deployments] in Hmode, Hdd. subst dd.
  unfold __main__, initial, listing. wp_simpl.
  destruct cl, ok; try discriminate Hmode; cbn [negb andb].
  all: repeat wp_step; try settled; subst; done.
Qed.


(** X5. For the deployment the script settles on (the one named, or the
    only one there is), a configuration file that does not exist makes the
    script write the error that names the file and the deployment and exit
    with status 1; [_main] is not called and nothing is run. *)
Theorem config_file_must_exist ARGS w name r s :
  cluster ARGS || okd ARGS = true →
  glob_glob "deployments/*.yaml" w ≠ [] →
  display_deployments ARGS = false →
  selected ARGS (glob_glob "deployments/*.yaml" w) = Some name →
  os_path_exists ("deployments/" +:+ name +:+ ".yaml") w = false →
  __main__ ARGS (initial w) = (r, s) →
  r = Ret 1%Z ∧ st_trace s = []
  ∧ st_probes s = [PExists ("deployments/" +:+ name +:+ ".yaml") false]
  ∧ st_out s
    = [OutError ("No config file ("
                 +:+ ("deployments/" +:+ name +:+ ".yaml")
                 +:+ ") for an " +:+ dq +:+ name +:+ dq +:+ " deployment")].
Proof.
  intros Hmode Hglob Hdd Hsel Hfile. revert r s. wp_start.
  destruct ARGS as [q cl ok dd sr st sp so spo ack dep].
  cbn [cluster okd display_deployments] in Hmode, Hdd. subst dd.
  unfold __main__, initial. wp_simpl.
  pick_deployment Hsel.
  all: cbn [default from_option id].
  all: destruct cl, ok; try discriminate Hmode; cbn [negb andb].
  all: repeat wp_step; try settled; subst; done.
Qed.

(** X6. For the deployment the script settles on, with its configuration
    file there, the script is [_main] and a report of its result: the
    commands run are those of [_main]; when [_main] returns [True] the
    script runs off its end and the exit status is 0; when it returns
    [False] the script adds the error [Failed to start cluster] and exits
    with status 1; an exception of [_main] is not caught. The exit status
    is 0 exactly when [_main] returned [True]. *)
Theorem exit_status_reports_main ARGS w name res s1 :
  cluster ARGS || okd ARGS = true →
  glob_glob "deployments/*.yaml" w ≠ [] →
  display_deployments ARGS = false →
  selected ARGS (glob_glob "deployments/*.yaml" w) = Some name →
  os_path_exists ("deployments/" +:+ name +:+ ".yaml") w = true →
  _main ARGS name (handed_over w name) = (res, s1) →
  ∀ r s, __main__ ARGS (initial w) = (r, s) →
    st_trace s = st_trace s1
    ∧ (exit_status r = 0%Z ↔ res = Ret true)
    ∧ (res = Ret true → r = Val () ∧ st_out s = st_out s1)
    ∧ (res = Ret false →
       r = Ret 1%Z
       ∧ st_out s = st_out s1 ++ [OutError "Failed to start cluster"])
    ∧ (∀ e, res = Exn e → r = Exn e ∧ st_out s = st_out s1).
Proof.
  intros Hmode Hglob Hdd Hsel Hfile Hrun. wp_start.
  destruct ARGS as [q cl ok dd sr st sp so spo ack dep].
  cbn [cluster okd display_deployments] in Hmode, Hdd. subst dd.
  unfold __main__, initial. wp_simpl.
  pick_deployment Hsel.
  all: cbn [default from_option id].
  all: destruct cl, ok; try discriminate Hmode; cbn [negb andb].
  all: repeat wp_step; try settled; subst.
  all: unfold handed_over in Hrun; unfold wp at 1; rewrite Hrun; clear Hrun.
  all: destruct s1 as [w1 t1 p1 o1]; destruct res as [[]|[]|e];
    repeat wp_step; cbn [exit_status].
  all: repeat split; try done; try (intros; congruence).
Qed.

End Front.

Lemma empty_deployments_directory_witness :
  empty_process.1 = Ret 1%Z ∧ st_trace empty_process.2 = []
  ∧ st_probes empty_process.2 = []
  ∧ st_out empty_process.2 = [OutPrint "The deployments directory is empty"].
Proof.
  exact (empty_deployments_directory (Ext := demo) install_args empty_world
           empty_process.1 empty_process.2 eq_refl eq_refl eq_refl).
Defined.

Lemma display_deployments_lists_and_stops_witness :
  display_process.1 = Ret 0%Z ∧ st_trace display_process.2 = []
  ∧ st_probes display_process.2 = []
  ∧ st_out display_process.2 = [OutPrint "demo"; OutPrint "test"].
Proof.
  apply (display_deployments_lists_and_stops (Ext := demo) display_args
           two_world display_process.1 display_process.2);
    [reflexivity|vm_compute; discriminate|reflexivity|reflexivity].
Defined.


Lemma config_file_must_exist_witness :
  other_process.1 = Ret 1%Z ∧ st_trace other_process.2 = []
  ∧ st_probes other_process.2 = [PExists "deployments/other.yaml" false]
  ∧ st_out other_process.2
    = [OutError ("No config file (deployments/other.yaml) for an "
                 +:+ dq +:+ "other" +:+ dq +:+ " deployment")].
Proof.
  apply (config_file_must_exist (Ext := demo) other_args cluster_world
           "other" other_process.1 other_process.2);
    [reflexivity|vm_compute; discriminate|reflexivity|reflexivity
    |reflexivity|reflexivity].
Defined.

Lemma exit_status_reports_main_witness :
  selected unnamed_args ["deployments/demo.yaml"] = Some "demo"
  ∧ handed_run.1 = Ret false
  ∧ st_trace b_fails_process.2 = st_trace handed_run.2
  ∧ b_fails_process.1 = Ret 1%Z
  ∧ st_out b_fails_process.2
    = st_out handed_run.2 ++ [OutError "Failed to start cluster"].
Proof.
  assert (Hglob : glob_glob (Externals := demo) "deployments/*.yaml"
                    b_fails_world ≠ []) by (vm_compute; discriminate).
  destruct (exit_status_reports_main (Ext := demo) unnamed_args b_fails_world
              "demo" handed_run.1 handed_run.2
              eq_refl Hglob eq_refl eq_refl eq_refl eq_refl
              b_fails_process.1 b_fails_process.2 eq_refl)
    as (Ht & _ & _ & Hfalse & _).
  destruct (Hfalse eq_refl) as [Hr Ho].
  split; [reflexivity|]. split; [reflexivity|].
  split; [exact Ht|]. split; [exact Hr|exact Ho].
Defined.

(** ** What [_main] reads, and when *)

Section Reads.
Context `{Ext : Externals}.

(** X7. When the deployment's file does not exist, [_main] writes the
    error that names the file and the deployment and returns [False]; the
    file is not loaded and nothing is run. *)
Theorem missing_deployment_file cli_args name w res s :
  os_path_exists ("deployments/" +:+ name +:+ ".yaml") w = false →
  _main cli_args name (initial w) = (res, s) →
  res = Ret false ∧ st_trace s = []
  ∧ st_probes s = [PExists ("deployments/" +:+ name +:+ ".yaml") false]
  ∧ st_out s
    = [OutError ("No config file ("
                 +:+ ("deployments/" +:+ name +:+ ".yaml")
                 +:+ ") for an " +:+ dq +:+ name +:+ dq +:+ " deployment")].
Proof.
  intros Hfile. revert res s. wp_start.
  destruct cli_args as [q cl ok dd sr st sp so spo ack dep].
  unfold _main, initial. wp_simpl.
  repeat wp_step. done.
Qed.

(** X8. Every command of a run is given the [quiet] flag of the command
    line. *)
Theorem every_command_gets_the_quiet_flag cli_args name w res s :
  _main cli_args name (initial w) = (res, s) →
  Forall (λ x, inv_quiet x.1 = quiet cli_args) (st_trace s).
Proof.
  revert res s. wp_start.
  apply (wp_keeps (λ _, Forall (λ x, inv_quiet x.1 = quiet cli_args)));
    [|by constructor|done].
  unfold _main. lazy zeta.
  repeat keeps_step.
  all: intros p t ? Ht; apply Forall_app; split; [done|];
    by apply Forall_singleton.
Qed.

(** X9. The inventory directory is the first thing read from the
    document: when [deployment['openshift']['inventory_dir']] fails, its
    exception leaves [_main] before the inventory is looked for, before
    the banner and before any command. *)
Theorem inventory_dir_is_read_first cli_args name w doc e res s :
  os_path_exists ("deployments/" +:+ name +:+ ".yaml") w = true →
  yaml_load ("deployments/" +:+ name +:+ ".yaml") w = Some doc →
  get_path doc ["openshift"; "inventory_dir"] = inl e →
  _main cli_args name (initial w) = (res, s) →
  res = Exn e ∧ st_trace s = [] ∧ st_out s = []
  ∧ st_probes s = [PExists ("deployments/" +:+ name +:+ ".yaml") true].
Proof.
  intros Hfile Hload Hinv. revert res s. wp_start.
  destruct cli_args as [q cl ok dd sr st sp so spo ack dep].
  unfold _main, initial. wp_simpl.
  repeat wp_step. done.
Qed.

(** X10. The ansible version is read from the document only when it is
    needed: in a run that is past the confirmation and in which no command
    fails, a document in which [deployment['ansible']['version']] fails
    makes [_main] raise that exception after the rendering command (unless
    skipped) and [pip install --upgrade pip] have run, and before any other
    command. *)
Theorem ansible_version_is_read_after_pip_upgrade
    cli_args name w doc e res s :
  past_gate cli_args name w doc →
  get_path doc ["ansible"; "version"] = inl e →
  _main cli_args name (initial w) = (res, s) →
  no_failure (st_trace s) = true →
  res = Exn e
  ∧ st_trace s = rendering cli_args name
                 ++ [(pip_upgrade (quiet cli_args), true)].
Proof.
  intros (Hfile & Hload & Hinv & Hdir & Hname & Hc) Hv.
  revert res s. wp_start.
  destruct cli_args as [q cl ok dd sr st sp so spo ack dep].
  unfold present, str_at, rendering, render_cmd, pip_upgrade in *.
  unfold confirmed in Hc; cbn [auto_acknowledge cluster] in Hc.
  unfold _main, initial. wp_simpl.
  repeat wp_step.
  all: try (intros Hnf; cbv [no_failure forallb snd andb] in Hnf;
            discriminate Hnf).
  all: try (intros _; split; reflexivity).
  all: first [congruence | simpl in Hc; rewrite H, H0 in Hc; congruence].
Qed.

(** X11. For a deployment that has its inventory and its name, what
    [_main] itself writes is the banner, then, unless the run is
    acknowledged beforehand, the prompt with the confirmation word and
    what the mode is about to do, and [Phew! That was close!] when the
    answer is not the word; it writes nothing after that, however the run
    goes on. *)
Theorem main_writes_banner_and_prompt_only cli_args name w doc res s :
  os_path_exists ("deployments/" +:+ name +:+ ".yaml") w = true →
  yaml_load ("deployments/" +:+ name +:+ ".yaml") w = Some doc →
  present doc ["openshift"; "inventory_dir"] →
  os_path_isdir ("openshift/inventories/"
                 +:+ str_at doc ["openshift"; "inventory_dir"]) w = true →
  present doc ["name"] →
  _main cli_args name (initial w) = (res, s) →
  st_out s = main_output cli_args doc w.
Proof.
  intros Hfile Hload Hinv Hdir Hname. revert res s. wp_start.
  destruct cli_args as [q cl ok dd sr st sp so spo ack dep].
  unfold present, str_at in *.
  unfold _main, initial. wp_simpl.
  wp_run_all.
  all: unfold main_output; cbn [auto_acknowledge cluster]; try reflexivity.
  all: repeat match goal with
    | Hw : io_get_confirmation_word _ = _ |- _ => rewrite Hw
    | Hi : input _ _ = _ |- _ => rewrite Hi
    | He : String.eqb _ _ = _ |- _ => rewrite He
    end; reflexivity.
Qed.

End Reads.

Lemma missing_deployment_file_witness :
  other_run.1 = Ret false ∧ st_trace other_run.2 = []
  ∧ st_probes other_run.2 = [PExists "deployments/other.yaml" false]
  ∧ st_out other_run.2
    = [OutError ("No config file (deployments/other.yaml) for an "
                 +:+ dq +:+ "other" +:+ dq +:+ " deployment")].
Proof.
  exact (missing_deployment_file (Ext := demo) install_args "other"
           cluster_world other_run.1 other_run.2 eq_refl eq_refl).
Defined.

Lemma every_command_gets_the_quiet_flag_witness :
  Forall (λ x, inv_quiet x.1 = false) (st_trace cluster_run.2).
Proof.
  exact (every_command_gets_the_quiet_flag (Ext := demo) cluster_args "demo"
           cluster_world cluster_run.1 cluster_run.2 eq_refl).
Defined.

Lemma inventory_dir_is_read_first_witness :
  bare_run.1 = Exn (KeyError "openshift") ∧ st_trace bare_run.2 = []
  ∧ st_out bare_run.2 = []
  ∧ st_probes bare_run.2 = [PExists "deployments/demo.yaml" true].
Proof.
  exact (inventory_dir_is_read_first (Ext := demo) install_args "demo"
           (demo_world bare_doc [] "") bare_doc (KeyError "openshift")
           bare_run.1 bare_run.2 eq_refl eq_refl eq_refl eq_refl).
Defined.

Lemma ansible_version_is_read_after_pip_upgrade_witness :
  no_version_run.1 = Exn (KeyError "ansible")
  ∧ st_trace no_version_run.2
    = [(render_cmd "demo" false, true); (pip_upgrade false, true)].
Proof.
  apply (ansible_version_is_read_after_pip_upgrade (Ext := demo)
           cluster_args "demo" (demo_world no_version_doc [] "")
           no_version_doc (KeyError "ansible")
           no_version_run.1 no_version_run.2);
    [repeat split; vm_compute; reflexivity
    |reflexivity|reflexivity|reflexivity].
Defined.

Lemma main_writes_banner_and_prompt_only_witness :
  st_out declined_run.2
  = [OutBanner (YStr "demo");
     OutPrompt ("Enter " +:+ dq +:+ "walrus" +:+ dq
                +:+ " to INSTALL OpenShift: ");
     OutPrint "Phew! That was close!"].
Proof.
  exact (main_writes_banner_and_prompt_only (Ext := demo) prompting_args
           "demo" cluster_world (demo_doc ["A"; "B"; "C"] true)
           declined_run.1 declined_run.2
           eq_refl eq_refl eq_refl eq_refl eq_refl eq_refl).
Defined.

(** ** The two modes *)

Section Modes.
Context `{Ext : Externals}.

(** Cluster mode returns at the end of its own stages. *)
Lemma cluster_mode_runs_no_install_command cli_args name w res s :
  cluster cli_args = true →
  _main cli_args name (initial w) = (res, s) →
  existsb is_install_command (st_trace s) = false
  ∧ clone_missing (st_probes s) || clone_found (st_probes s) = false.
Proof.
  intros Hcl. revert res s. wp_start.
  destruct cli_args as [q cl ok dd sr st sp so spo ack dep].
  cbn [cluster] in Hcl. subst cl.
  unfold _main, initial. wp_simpl.
  wp_run_all.
  all: split; lazy; reflexivity.
Qed.

Lemma install_mode_runs_no_cluster_command cli_args name w res s :
  cluster cli_args = false →
  _main cli_args name (initial w) = (res, s) →
  existsb is_cluster_command (st_trace s) = false.
Proof.
  intros Hcl. revert res s. wp_start.
  destruct cli_args as [q cl ok dd sr st sp so spo ack dep].
  cbn [cluster] in Hcl. subst cl.
  apply (wp_keeps (λ _ t, existsb is_cluster_command t = false));
    [|done|done].
  unfold _main. wp_simpl.
  repeat keeps_step.
  all: try discriminate.
  all: intros p t ? Ht; rewrite existsb_app, Ht; lazy; reflexivity.
Qed.

(** X12. The two modes do not mix. A cluster-mode run runs no git command
    and no playbook of the OpenShift stages, and does not look for the
    clone directory; an install-mode run runs no terraform command and not
    the bastion playbook. *)
Theorem modes_do_not_mix cli_args name w res s :
  _main cli_args name (initial w) = (res, s) →
  (cluster cli_args = true →
   existsb is_install_command (st_trace s) = false
   ∧ clone_missing (st_probes s) || clone_found (st_probes s) = false)
  ∧ (cluster cli_args = false →
     existsb is_cluster_command (st_trace s) = false).
Proof.
  intros Hrun. split; intros Hcl.
  - by eapply cluster_mode_runs_no_install_command.
  - by eapply install_mode_runs_no_cluster_command.
Qed.

End Modes.

Lemma modes_do_not_mix_witness :
  existsb is_install_command (st_trace cluster_run.2) = false
  ∧ existsb is_cluster_command (st_trace first_install_run.2) = false.
Proof.
  split.
  - exact (proj1 (proj1 (modes_do_not_mix (Ext := demo) cluster_args "demo"
                           cluster_world cluster_run.1 cluster_run.2 eq_refl)
                        eq_refl)).
  - exact (proj2 (modes_do_not_mix (Ext := demo) install_args "demo"
                    cluster_world first_install_run.1 first_install_run.2
                    eq_refl)
                 eq_refl).
Defined.

(** ** Failure and success *)

(** The successful commands at the front of a trace that is written out,
    what is behind them, and the failed command at the end, if there is
    one. *)
Ltac front_successes t :=
  lazymatch t with
  | (?i, true) :: ?t' => let r := front_successes t' in constr:(i :: r)
  | _ => constr:(@nil Invocation)
  end.
Ltac behind_front t :=
  lazymatch t with
  | (_, true) :: ?t' => behind_front t'
  | _ => t
  end.
Ltac successes t :=
  let pre := front_successes t in
  let back := behind_front t in
  lazymatch back with
  | succeeded ?l ++ ?t' =>
      let r := front_successes t' in constr:(pre ++ l ++ r)
  | succeeded ?l => constr:(pre ++ l)
  | ?p ++ succeeded ?l ++ ?t' =>
      let a := front_successes p in
      let r := front_successes t' in constr:(a ++ l ++ r)
  | _ => pre
  end.
Ltac failure t :=
  lazymatch t with
  | [(?i, false)] => constr:(Some i)
  | _ :: ?t' => failure t'
  | _ ++ ?t' => failure t'
  | _ => constr:(@None Invocation)
  end.

Ltac failure_leaf :=
  lazymatch goal with
  | |- stops_at_first_failure ?res ?t =>
      let cmds := successes t in
      let f := failure t in
      exists cmds;
      lazymatch f with
      | Some ?i =>
          right; exists i; split; [|reflexivity];
          first [ reflexivity
                | rewrite ?succeeded_app, <-?app_assoc; reflexivity ]
      | None =>
          left; split;
          [ first [ reflexivity
                  | rewrite ?succeeded_app, <-?app_assoc; reflexivity ]
          | first [discriminate | intros _; reflexivity] ]
      end
  end.

(** The plan of a run whose flags are known. *)
Ltac plan_simpl :=
  rewrite succeeded_planned;
  unfold bastion_cmd, pre_os_cmd, generate_cert_of;
  repeat match goal with
    | E : truthy _ = _ |- _ => rewrite E
    end.

Section Outcome.
Context `{Ext : Externals}.

(** X13. A run stops at the first command that fails. In every run, all
    commands but the last have succeeded; when the last one failed,
    [_main] returns [False]; and when [_main] returns [False] without a
    failed command, it has run no command at all. *)
Theorem first_failure_ends_the_run cli_args name w res s :
  _main cli_args name (initial w) = (res, s) →
  stops_at_first_failure res (st_trace s).
Proof.
  revert res s. wp_start.
  destruct cli_args as [q cl ok dd sr st sp so spo ack dep].
  unfold _main, initial. wp_simpl.
  wp_run_all.
  all: failure_leaf.
Qed.

(** X14. A run that is past the confirmation and returns [True] has run
    exactly the commands of the stages of its mode that are not skipped,
    in the order of the script, and every one of them succeeded; the clone
    is among them exactly when the clone directory was found missing. *)
Theorem successful_run_follows_the_plan cli_args name w doc res s :
  yaml_load ("deployments/" +:+ name +:+ ".yaml") w = Some doc →
  confirmed cli_args w = true →
  _main cli_args name (initial w) = (res, s) →
  res = Ret true →
  st_trace s = succeeded
       (planned cli_args name doc (clone_missing (st_probes s))).
Proof.
  intros Hload Hc. revert res s. wp_start.
  destruct cli_args as [q cl ok dd sr st sp so spo ack dep].
  unfold confirmed in Hc. cbn [auto_acknowledge cluster] in Hc.
  unfold _main, initial. wp_simpl.
  wp_run_all.
  all: try (intros; discriminate).
  all: intros _; plan_simpl.
  all: try reflexivity.
  simpl in Hc.
  match goal with
  | H : io_get_confirmation_word _ = _ |- _ => rewrite H in Hc
  end.
  match goal with H : input _ _ = _ |- _ => rewrite H in Hc end.
  congruence.
Qed.

End Outcome.

Lemma first_failure_ends_the_run_witness :
  stops_at_first_failure b_fails_run.1 (st_trace b_fails_run.2).
Proof.
  exact (first_failure_ends_the_run (Ext := demo) install_args "demo"
           b_fails_world b_fails_run.1 b_fails_run.2 eq_refl).
Defined.

Lemma successful_run_follows_the_plan_witness :
  st_trace cluster_run.2
  = succeeded (planned (Ext := demo) cluster_args "demo"
                 (demo_doc ["A"; "B"; "C"] true) false)
  ∧ length (st_trace cluster_run.2) = 7.
Proof.
  split; [|reflexivity].
  exact (successful_run_follows_the_plan (Ext := demo) cluster_args "demo"
           cluster_world (demo_doc ["A"; "B"; "C"] true)
           cluster_run.1 cluster_run.2 eq_refl eq_refl eq_refl eq_refl).
Defined.
